(** * FileUtils: the upload controller of core/classes/FileUtils.py

    A shallow embedding of [FileController]: the chunked stream reader
    ([process_stream]), the base64 envelope ([get_base64_info],
    [get_base64_file_length]), the two POST handlers ([on_post],
    [on_post_base64]) and the persistence orchestration ([process_file],
    [create_thumbnail]).

    Python values that are dynamically typed in the source are kept in a
    small universe ([json] for what [json.loads] and the request carry,
    [content] for file payloads).  Exceptions are explicit ([exn], [result]),
    and the calls to collaborators outside the file (the part's stream,
    base64, filetype, PIL, [create_file]) are recorded in a trace so that the
    order of effects can be stated. *)

From Stdlib Require Import ZArith QArith List Bool Lia.
From Stdlib.Strings Require Import String Ascii Byte.
From Stdlib Require DecimalString.
Import ListNotations.

Set Warnings "-register-all".

Local Open Scope string_scope.
Local Open Scope Z_scope.

(* ------------------------------------------------------------------ *)
(** ** Python strings and bytes                                        *)
(* ------------------------------------------------------------------ *)

Definition bytes := list byte.

Definition len_str (s : string) : Z := Z.of_nat (String.length s).
Definition len_bytes (b : bytes) : Z := Z.of_nat (List.length b).

(** [bytes.join] on the empty separator, as the reader ends with. *)
Definition join_bytes (data : list bytes) : bytes := List.concat data.

(** Slice indices as [str.count], [str.find] and slicing adjust them:
    a negative index counts from the end, and both ends are clamped to
    [0 .. n]. *)
Definition adjust_index (i n : Z) : Z :=
  if i <? 0 then Z.max 0 (i + n) else Z.min i n.

Fixpoint count_char (c : ascii) (s : string) : Z :=
  match s with
  | EmptyString => 0
  | String a rest => (if Ascii.eqb a c then 1 else 0) + count_char c rest
  end.

(** [s[lo:hi]] for adjusted indices. *)
Definition slice (s : string) (lo hi : Z) : string :=
  if hi <=? lo then EmptyString
  else String.substring (Z.to_nat lo) (Z.to_nat (hi - lo)) s.

(** [s.count(c, start, end)] for a one-character [c]. *)
Definition str_count (s : string) (c : ascii) (start stop : Z) : Z :=
  let n := len_str s in
  count_char c (slice s (adjust_index start n) (adjust_index stop n)).

(** [s.split(sep)] for a one-character separator: never empty, one more
    segment than there are separators. *)
Fixpoint str_split (sep : ascii) (s : string) : list string :=
  match s with
  | EmptyString => [EmptyString]
  | String a rest =>
      if Ascii.eqb a sep then EmptyString :: str_split sep rest
      else match str_split sep rest with
           | [] => [String a EmptyString]
           | seg :: segs => String a seg :: segs
           end
  end.

(** [c in s] *)
Fixpoint str_mem (c : ascii) (s : string) : bool :=
  match s with
  | EmptyString => false
  | String a rest => Ascii.eqb a c || str_mem c rest
  end.

(** [x in xs] for a list of strings. *)
Fixpoint str_in (x : string) (xs : list string) : bool :=
  match xs with
  | [] => false
  | y :: ys => String.eqb x y || str_in x ys
  end.

(* ------------------------------------------------------------------ *)
(** ** The values the handlers pass around                             *)
(* ------------------------------------------------------------------ *)

(** What [json.loads] builds and what a request parameter or a part's
    filename can be. *)
Inductive json : Type :=
| JNull
| JBool (b : bool)
| JInt (z : Z)
| JStr (s : string)
| JList (l : list json)
| JDict (d : list (string * json)).

(** Python truthiness, as [not x] and [if x] test it. *)
Definition truthy (v : json) : bool :=
  match v with
  | JNull => false
  | JBool b => b
  | JInt z => negb (z =? 0)
  | JStr s => negb (String.eqb s EmptyString)
  | JList l => match l with [] => false | _ => true end
  | JDict d => match d with [] => false | _ => true end
  end.

(** [d.get(k)]: the value bound to [k], [None] when there is none. *)
Fixpoint dict_get (d : list (string * json)) (k : string) : json :=
  match d with
  | [] => JNull
  | (k', v) :: rest => if String.eqb k k' then v else dict_get rest k
  end.

(** A file payload: raw [bytes], or the [io.BytesIO] buffer the image
    helpers return. *)
Inductive content : Type :=
| Bytes (b : bytes)
| BytesIO (b : bytes).

(** The exceptions that can travel through the controller. *)
Inductive exn : Type :=
| FileSizeGreaterThanAllowed
| ContentTypeNotAllowed (invalid_type : string) (accepted_types : list string)
| UnboundLocalError (name : string)
| AttributeError (msg : string)
| TypeError (msg : string)
| LibraryError (msg : string).

Inductive result (A : Type) : Type :=
| Ok (a : A)
| Raise (e : exn).
Arguments Ok {A} a.
Arguments Raise {A} e.

(* ------------------------------------------------------------------ *)
(** ** str() and repr()                                                *)
(* ------------------------------------------------------------------ *)

Definition hex_digit (n : N) : ascii :=
  ascii_of_N (if (n <? 10)%N then 48 + n else 87 + n)%N.

(** [repr] of one character inside a literal quoted with [q]. *)
Definition repr_char (q a : ascii) : string :=
  let n := N_of_ascii a in
  if Ascii.eqb a "\" then "\\"
  else if Ascii.eqb a q then String "\" (String q EmptyString)
  else if (n =? 10)%N then "\n"
  else if (n =? 13)%N then "\r"
  else if (n =? 9)%N then "\t"
  else if ((n <? 32) || (n =? 127))%N then
    String "\" (String "x" (String (hex_digit (n / 16)) (String (hex_digit (n mod 16)) EmptyString)))
  else String a EmptyString.

Fixpoint repr_chars (q : ascii) (s : string) : string :=
  match s with
  | EmptyString => EmptyString
  | String a rest => repr_char q a ++ repr_chars q rest
  end.

Definition dquote : ascii := ascii_of_N 34.

(** [repr(s)]: single quotes, unless the text holds a single quote and no
    double quote. *)
Definition repr_str (s : string) : string :=
  let q := if str_mem "'" s && negb (str_mem dquote s) then dquote else "'"%char in
  String q (repr_chars q s ++ String q EmptyString).

(** [", ".join(xs)] *)
Fixpoint join_comma (xs : list string) : string :=
  match xs with
  | [] => EmptyString
  | [x] => x
  | x :: rest => x ++ ", " ++ join_comma rest
  end.

Definition str_of_Z (z : Z) : string :=
  match z with
  | Z0 => "0"
  | Zpos p => DecimalString.NilEmpty.string_of_uint (Pos.to_uint p)
  | Zneg p => "-" ++ DecimalString.NilEmpty.string_of_uint (Pos.to_uint p)
  end.

Fixpoint repr_json (v : json) : string :=
  match v with
  | JNull => "None"
  | JBool b => if b then "True" else "False"
  | JInt z => str_of_Z z
  | JStr s => repr_str s
  | JList l => "[" ++ join_comma (List.map repr_json l) ++ "]"
  | JDict d =>
      "{" ++ join_comma (List.map (fun kv => repr_str (fst kv) ++ ": " ++ repr_json (snd kv)) d) ++ "}"
  end.

(** [str(v)], which is what an f-string field formats with. *)
Definition str_json (v : json) : string :=
  match v with
  | JStr s => s
  | _ => repr_json v
  end.

(** [repr] of a list of strings, as in [f"{accepted_types}"]. *)
Definition repr_str_list (xs : list string) : string :=
  "[" ++ join_comma (List.map repr_str xs) ++ "]".

(** [str(e)]: the two exception classes of the file build their message
    in [__init__]; the others carry the text they were raised with. *)
Definition str_exn (e : exn) : string :=
  match e with
  | FileSizeGreaterThanAllowed => "The file size exceeds the allowed limit of 4MB."
  | ContentTypeNotAllowed invalid_type accepted_types =>
      "Files of type " ++ invalid_type ++ " are not allowed. "
      ++ "Please upload a file with the following extensions: "
      ++ repr_str_list accepted_types
  | UnboundLocalError name =>
      "cannot access local variable " ++ repr_str name
      ++ " where it is not associated with a value"
  | AttributeError msg => msg
  | TypeError msg => msg
  | LibraryError msg => msg
  end.

(* ------------------------------------------------------------------ *)
(** ** base64, as the standard library computes it                     *)
(* ------------------------------------------------------------------ *)

Definition byte_of_N (n : N) : byte :=
  match Byte.of_N n with
  | Some b => b
  | None => x00
  end.

(** The standard alphabet: A-Z, a-z, 0-9, + and /. *)
Definition b64_char (n : N) : ascii :=
  ascii_of_N (if n <? 26 then 65 + n
              else if n <? 52 then 71 + n
              else if n <? 62 then n - 4
              else if n =? 62 then 43 else 47)%N.

Definition b64_value (a : ascii) : option N :=
  let n := N_of_ascii a in
  (if (65 <=? n) && (n <=? 90) then Some (n - 65)
   else if (97 <=? n) && (n <=? 122) then Some (n - 71)
   else if (48 <=? n) && (n <=? 57) then Some (n + 4)
   else if n =? 43 then Some 62
   else if n =? 47 then Some 63
   else None)%N.

(** [base64.b64encode]: three bytes become four characters, and a last
    group of one or two bytes is padded with [=]. *)
Fixpoint b64encode (data : bytes) : string :=
  match data with
  | [] => EmptyString
  | [a] =>
      let x := Byte.to_N a in
      String (b64_char (x / 4)) (String (b64_char (x mod 4 * 16)) "==")
  | [a; b] =>
      let x := Byte.to_N a in
      let y := Byte.to_N b in
      String (b64_char (x / 4))
        (String (b64_char (x mod 4 * 16 + y / 16))
           (String (b64_char (y mod 16 * 4)) "="))
  | a :: b :: c :: rest =>
      let x := Byte.to_N a in
      let y := Byte.to_N b in
      let z := Byte.to_N c in
      String (b64_char (x / 4))
        (String (b64_char (x mod 4 * 16 + y / 16))
           (String (b64_char (y mod 16 * 4 + z / 64))
              (String (b64_char (z mod 64)) (b64encode rest))))
  end%N.

(** [binascii.a2b_base64] without [strict_mode], which [base64.b64decode]
    calls when [validate] is left false: characters outside the alphabet
    are skipped, a complete pad sequence ends the input, and an
    incomplete last group is an error.  [out] is kept in reverse. *)
Fixpoint a2b_base64 (s : string) (quad_pos leftchar pads : N) (out : bytes)
  : result bytes :=
  match s with
  | EmptyString =>
      if (quad_pos =? 0)%N then Ok (rev out)
      else if (quad_pos =? 1)%N then
        Raise (LibraryError
                 ("Invalid base64-encoded string: number of data characters ("
                  ++ str_of_Z (Z.of_nat (List.length out) / 3 * 4 + 1)
                  ++ ") cannot be 1 more than a multiple of 4"))
      else Raise (LibraryError "Incorrect padding")
  | String a rest =>
      if Ascii.eqb a "=" then
        if (2 <=? quad_pos)%N then
          if (4 <=? quad_pos + (pads + 1))%N then Ok (rev out)
          else a2b_base64 rest quad_pos leftchar (pads + 1)%N out
        else a2b_base64 rest quad_pos leftchar pads out
      else
        match b64_value a with
        | None => a2b_base64 rest quad_pos leftchar pads out
        | Some v =>
            if (quad_pos =? 0)%N then a2b_base64 rest 1%N v 0%N out
            else if (quad_pos =? 1)%N then
              a2b_base64 rest 2%N (v mod 16)%N 0%N
                (byte_of_N (leftchar * 4 + v / 16) :: out)
            else if (quad_pos =? 2)%N then
              a2b_base64 rest 3%N (v mod 4)%N 0%N
                (byte_of_N (leftchar * 16 + v / 4) :: out)
            else
              a2b_base64 rest 0%N 0%N 0%N
                (byte_of_N (leftchar * 64 + v) :: out)
        end
  end.

Definition is_ascii (s : string) : bool :=
  List.forallb (fun a => (N_of_ascii a <? 128)%N) (list_ascii_of_string s).

Definition type_name (v : json) : string :=
  match v with
  | JNull => "NoneType"
  | JBool _ => "bool"
  | JInt _ => "int"
  | JStr _ => "str"
  | JList _ => "list"
  | JDict _ => "dict"
  end.

(** [base64.b64decode(s)] on what the envelope can hold: a [str] is
    encoded as ASCII first, anything else is not bytes-like. *)
Definition base64_b64decode (v : json) : result bytes :=
  match v with
  | JStr s =>
      if is_ascii s then a2b_base64 s 0%N 0%N 0%N []
      else Raise (LibraryError "string argument should contain only ASCII characters")
  | _ =>
      Raise (TypeError ("argument should be a bytes-like object or ASCII string, not "
                        ++ repr_str (type_name v)))
  end.

Definition bytes_of (s : string) : bytes := list_byte_of_string s.

(* ------------------------------------------------------------------ *)
(** ** Requests, collaborators and effects                             *)
(* ------------------------------------------------------------------ *)

(** A multipart part: its declared content type, its filename ([None]
    when the part has none) and its stream, given as the chunks that
    successive [stream.read(CHUNK_SIZE)] calls return; once they are used
    up a read returns the empty bytes. *)
Record BodyPart : Type := {
  content_type : string;
  filename : json;
  stream : list bytes
}.

(** What the handlers look at in a request: the query parameters, the raw
    body ([req.stream.read()]) and the parsed form ([req.get_media()]). *)
Record Request : Type := {
  params : list (string * json);
  body : bytes;
  media : result (list BodyPart)
}.

(** The status handed to [self.response]: a member of [HTTPStatus] or the
    integer [process_file] returns. *)
Inductive Status : Type :=
| HTTPStatus_METHOD_NOT_ALLOWED
| HTTPStatus_BAD_REQUEST
| StatusCode (code : Z).

(** The objects of the model and framework layers, opaque here. *)
Class Models : Type := {
  User : Type;
  Session : Type;
  File : Type;
  Image : Type;
  Response : Type
}.

Section Model.

Context {models : Models}.

(** The arguments of one [create_file] call. *)
Record CreateArgs : Type := {
  file_name : json;
  file_content : content;
  file_type : string;
  is_thumbnail : Z;
  arg_encode_to_base64 : bool;
  arg_user : User;
  arg_public : bool;
  arg_private : bool
}.

(** The calls that leave the controller, in the order they are made. *)
Inductive Event : Type :=
| StreamRead (size : Z) (chunk : bytes)
| BodyRead
| B64Decode (v : json)
| FiletypeGuess (data : bytes)
| ImageOpen (data : bytes)
| CreateFile (args : CreateArgs).

(** Code imported from outside the file: [core.Controller], [core.Utils]
    and the base64, json, filetype and PIL libraries. *)
Class Collaborators : Type := {
  session_user : Session -> User;
  get_session : Request -> Response -> option Session * Response;
  response : Response -> Status -> option json -> option string -> Response;
  serialize_model : File -> json;
  json_loads : bytes -> result json;
  b64decode : json -> result bytes;
  filetype_guess : bytes -> option string;
  Image_open : bytes -> result Image;
  Image_format : Image -> json;
  Image_thumbnail : Image -> Z * Z -> result Image;
  Image_save : Image -> json -> list (string * json) -> result bytes
}.

(** [FileAbstract]: what a concrete controller has to implement.  The
    record it returns is falsy ([None]) when nothing was saved, and the
    answer may depend on what happened before. *)
Class FileAbstract : Type := {
  create_file : list Event -> CreateArgs -> result (option File)
}.

(** [self]: the two attributes [__init__] reads from the configuration. *)
Record FileController : Type := {
  accepted_files : list string;
  max_file_size : Z
}.

Definition CHUNK_SIZE : Z := 8192.
Definition IMAGE_EXTENSIONS : list string := ["image/jpeg"; "image/png"; "image/jpg"].

(** Modelled from the spec: [PROBLEM_SAVING_TO_DB] is a constant of
    [core.Controller], which is not part of the sources; the text is the
    one the specification gives for the persistence error. *)
Definition PROBLEM_SAVING_TO_DB : string := "problem saving to db".

(** *** Computations: a trace of events and an outcome *)

Definition M (A : Type) : Type := list Event -> result A * list Event.

Definition ret {A} (a : A) : M A := fun tr => (Ok a, tr).
Definition raise {A} (e : exn) : M A := fun tr => (Raise e, tr).
Definition bind {A B} (m : M A) (k : A -> M B) : M B :=
  fun tr =>
    match m tr with
    | (Ok a, tr') => k a tr'
    | (Raise e, tr') => (Raise e, tr')
    end.
Definition emit (ev : Event) : M unit := fun tr => (Ok tt, (tr ++ [ev])%list).
Definition lift {A} (r : result A) : M A := fun tr => (r, tr).

(** [try: m / except ...: h], for the exceptions [handles] selects. *)
Definition try_except {A} (m : M A) (handles : exn -> bool) (h : exn -> M A) : M A :=
  fun tr =>
    match m tr with
    | (Ok a, tr') => (Ok a, tr')
    | (Raise e, tr') => if handles e then h e tr' else (Raise e, tr')
    end.

End Model.

Declare Scope ctl_scope.
Delimit Scope ctl_scope with ctl.
Notation "x <- m ;; k" := (bind m (fun x => k))
  (at level 61, m at next level, right associativity) : ctl_scope.
Notation "' pat <- m ;; k" :=
  (bind m (fun x => match x with pat => k end))
  (at level 61, pat pattern, m at next level, right associativity) : ctl_scope.
Notation "m ;;; k" := (bind m (fun _ => k))
  (at level 61, right associativity) : ctl_scope.

Local Open Scope ctl_scope.

(* ------------------------------------------------------------------ *)
(** ** FileController                                                  *)
(* ------------------------------------------------------------------ *)

Section Controller.

Context {models : Models} {collab : Collaborators} {impl : FileAbstract}.

Variable self : FileController.

(** [compress_image]: reopen the image and save it again in its own
    format with [optimize=True, quality=65]; the buffer is returned. *)
Definition compress_image (image_data : bytes) : M content :=
  emit (ImageOpen image_data) ;;;
  image_data_content <- lift (Image_open image_data) ;;
  b <- lift (Image_save image_data_content (Image_format image_data_content)
               [("optimize", JBool true); ("quality", JInt 65)]) ;;
  ret (BytesIO b).

Definition check_if_valid_content_type (content_type : string) : M unit :=
  if negb (str_in content_type (accepted_files self))
  then raise (ContentTypeNotAllowed content_type (accepted_files self))
  else ret tt.

(** The [while chunk := part.stream.read(self.CHUNK_SIZE)] loop of
    [process_stream], on the chunks the stream still holds. *)
Fixpoint read_chunks (chunks : list bytes) (read_so_far : Z) (data : list bytes)
  : M (list bytes) :=
  match chunks with
  | [] => emit (StreamRead CHUNK_SIZE []) ;;; ret data
  | chunk :: rest =>
      emit (StreamRead CHUNK_SIZE chunk) ;;;
      match chunk with
      | [] => ret data
      | _ =>
          let data := (data ++ [chunk])%list in
          let read_so_far := read_so_far + len_bytes chunk in
          if read_so_far >? max_file_size self
          then raise FileSizeGreaterThanAllowed
          else read_chunks rest read_so_far data
      end
  end.

Definition process_stream (part : BodyPart) : M content :=
  check_if_valid_content_type (content_type part) ;;;
  data <- read_chunks (stream part) 0 [] ;;
  if str_in (content_type part) IMAGE_EXTENSIONS
  then compress_image (join_bytes data)
  else ret (Bytes (join_bytes data)).

(** [req.params.get(name) == "True"] *)
Definition param_is_True (req : Request) (name : string) : bool :=
  match dict_get (params req) name with
  | JStr s => String.eqb s "True"
  | _ => false
  end.

Definition check_if_make_thumbnail (req : Request) : bool := param_is_True req "thumbnail".
Definition check_if_public_file (req : Request) : bool := param_is_True req "public".
Definition check_if_private_file (req : Request) : bool := param_is_True req "private".

(** A call of the abstract [create_file], recorded in the trace. *)
Definition call_create_file (args : CreateArgs) : M (option File) :=
  fun tr => (create_file tr args, (tr ++ [CreateFile args])%list).

Definition bytes_of_content (c : content) : bytes :=
  match c with
  | Bytes b => b
  | BytesIO b => b
  end.

(** [create_thumbnail_image]: bytes are wrapped in a buffer first, so
    either payload is opened the same way; the image is shrunk in place to
    fit 640 x 640 and saved in its own format. *)
Definition create_thumbnail_image (image_data : content) : M content :=
  let image_data := bytes_of_content image_data in
  emit (ImageOpen image_data) ;;;
  image_data_content <- lift (Image_open image_data) ;;
  image_data_content <- lift (Image_thumbnail image_data_content (640, 640)) ;;
  b <- lift (Image_save image_data_content (Image_format image_data_content) []) ;;
  ret (BytesIO b).

(** The name [create_thumbnail] builds from [filename.split(".")]. *)
Definition thumbnail_name (filename : string) : string :=
  let filename := str_split "." filename in
  (nth 0 filename EmptyString ++ "_thumbnail"
   ++ (if (1 <? Z.of_nat (List.length filename))%Z
       then "." ++ nth 1 filename EmptyString
       else EmptyString))%string.

(** The name as the specification words it, to compare with: the
    extension is what follows the last dot, the base name what precedes
    it, and a name without a dot has no extension. *)
Fixpoint join_dot (segs : list string) : string :=
  match segs with
  | [] => EmptyString
  | [seg] => seg
  | seg :: rest => (seg ++ "." ++ join_dot rest)%string
  end.

Definition spec_thumbnail_name (filename : string) : string :=
  let segs := str_split "." filename in
  (if (1 <? Z.of_nat (List.length segs))%Z
   then join_dot (removelast segs) ++ "_thumbnail." ++ last segs EmptyString
   else filename ++ "_thumbnail")%string.

Definition create_thumbnail (image_data : content) (filename : json)
    (content_type : string) (encode_to_base64 : bool) (user : User)
    (public private : bool) : M (option File) :=
  thumbnail_content <- create_thumbnail_image image_data ;;
  match filename with
  | JStr filename =>
      call_create_file
        {| file_name := JStr (thumbnail_name filename);
           file_content := thumbnail_content;
           file_type := content_type;
           is_thumbnail := 1;
           arg_encode_to_base64 := encode_to_base64;
           arg_user := user;
           arg_public := public;
           arg_private := false |}
  | _ =>
      raise (AttributeError
               (repr_str (type_name filename) ++ " object has no attribute 'split'"))
  end.

(** [process_file]: the primary file, then the thumbnail when it was
    asked for and the type is an image type.  The result is the tuple
    (file, thumbnail or [None], status). *)
Definition process_file (filename : json) (data : content) (content_type : string)
    (user : User) (encode_to_base64 make_thumbnail public private : bool)
  : M (json * json * Z) :=
  file <- call_create_file
            {| file_name := filename;
               file_content := data;
               file_type := content_type;
               is_thumbnail := 0;
               arg_encode_to_base64 := encode_to_base64;
               arg_user := user;
               arg_public := public;
               arg_private := private |} ;;
  match file with
  | None =>
      ret (JDict [("Filename", filename); ("Error", JStr PROBLEM_SAVING_TO_DB)],
           JNull, 500)
  | Some file =>
      if make_thumbnail && str_in content_type IMAGE_EXTENSIONS then
        thumbnail <- create_thumbnail data filename content_type encode_to_base64
                       user public private ;;
        let thumbnail :=
          match thumbnail with
          | Some thumbnail => serialize_model thumbnail
          | None => JDict [("Filename_thumbnail", filename);
                           ("error", JStr PROBLEM_SAVING_TO_DB)]
          end in
        ret (serialize_model file, thumbnail, 201)
      else ret (serialize_model file, JNull, 201)
  end.

Definition decode_base64_file (base64_info : json) : M bytes :=
  emit (B64Decode base64_info) ;;;
  lift (b64decode base64_info).

(** [filetype.guess(data).mime]: the guess is [None] for bytes no matcher
    recognises, and [None] has no attribute [mime]. *)
Definition get_mimetype (data : bytes) : M string :=
  emit (FiletypeGuess data) ;;;
  match filetype_guess data with
  | Some mime => ret mime
  | None => raise (AttributeError "'NoneType' object has no attribute 'mime'")
  end.

(** [(len(b64string) * 3) / 4 - b64string.count("=", -1, -5)].  The
    division is Python's true division; its value is kept as a rational,
    which is what the float holds for any length a request can have. *)
Definition get_base64_file_length (b64string : json) : result Q :=
  match b64string with
  | JStr s =>
      Ok ((inject_Z (len_str s * 3) / inject_Z 4
           - inject_Z (str_count s "=" (-1) (-5)))%Q)
  | JList _ => Raise (TypeError "list.count() takes exactly one argument (3 given)")
  | JDict _ => Raise (AttributeError "'dict' object has no attribute 'count'")
  | _ =>
      Raise (TypeError ("object of type " ++ repr_str (type_name b64string)
                        ++ " has no len()"))
  end.

(** [get_base64_info]: the triple (base64 string, file name, error
    message), with [None] for what is missing. *)
Definition get_base64_info (req : Request) : M (json * json * option string) :=
  parsed <- try_except
              (emit BodyRead ;;;
               data <- lift (json_loads (body req)) ;;
               ret (inr data))
              (fun _ => true)
              (fun exc => ret (inl (str_exn exc))) ;;
  match parsed with
  | inl message => ret (JNull, JNull, Some message)
  | inr (JDict data) =>
      let file_name := dict_get data "file_name" in
      let base64_info := dict_get data "base64" in
      if negb (truthy file_name) || negb (truthy base64_info)
      then ret (JNull, JNull, Some "'file_name' and 'base64' needed")
      else
        estimate <- lift (get_base64_file_length base64_info) ;;
        if negb (Qle_bool estimate (inject_Z (max_file_size self)))
        then ret (JNull, JNull,
                  Some ("The file " ++ str_json file_name ++ " is larger than 4mb."))
        else ret (base64_info, file_name, None)
  | inr data =>
      raise (AttributeError
               (repr_str (type_name data) ++ " object has no attribute 'get'"))
  end.

(** [if id:] on the optional integer of the route. *)
Definition id_given (id : option Z) : bool :=
  match id with
  | Some z => negb (z =? 0)
  | None => false
  end.

(** A local variable is read: unbound when nothing was assigned to it. *)
Definition load_local {A} (name : string) (v : option A) : M A :=
  match v with
  | Some a => ret a
  | None => raise (UnboundLocalError name)
  end.

(** The locals [on_post] assigns inside its loop and reads after it. *)
Record PostLocals : Type := {
  local_code : option Z;
  local_data : option json
}.

(** The [for part in form] loop of [on_post].  Its body ends in [return]
    (left: the response is complete) or in [break], so only the first
    part is looked at; with no part the body never runs and the locals
    stay unassigned. *)
Definition on_post_loop (resp : Response) (form : list BodyPart) (user : User)
    (make_thumbnail public_file private_file : bool) : M (Response + PostLocals) :=
  match form with
  | [] => ret (inr {| local_code := None; local_data := None |})
  | part :: _ =>
      stream_content <- try_except
                          (stream_content <- process_stream part ;;
                           ret (inr stream_content))
                          (fun _ => true)
                          (fun e => ret (inl e)) ;;
      match stream_content with
      | inl e =>
          ret (inl (response resp HTTPStatus_BAD_REQUEST None (Some (str_exn e))))
      | inr stream_content =>
          '(file_data, thumbnail_data, code) <-
             process_file (filename part) stream_content (content_type part)
               user false make_thumbnail public_file private_file ;;
          let data := [file_data] in
          let data := if truthy thumbnail_data
                      then (data ++ [thumbnail_data])%list else data in
          ret (inr {| local_code := Some code; local_data := Some (JList data) |})
      end
  end.

Definition on_post (req : Request) (resp : Response) (id : option Z) : M Response :=
  if id_given id then
    ret (response resp HTTPStatus_METHOD_NOT_ALLOWED None None)
  else
    let (session, resp) := get_session req resp in
    match session with
    | None => ret resp
    | Some session =>
        let make_thumbnail := check_if_make_thumbnail req in
        let public_file := check_if_public_file req in
        let private_file := check_if_private_file req in
        form <- lift (media req) ;;
        after <- on_post_loop resp form (session_user session)
                   make_thumbnail public_file private_file ;;
        match after with
        | inl resp => ret resp
        | inr locals =>
            code <- load_local "code" (local_code locals) ;;
            data <- load_local "data" (local_data locals) ;;
            ret (response resp (StatusCode code) (Some data) None)
        end
    end.

Definition is_ContentTypeNotAllowed (e : exn) : bool :=
  match e with
  | ContentTypeNotAllowed _ _ => true
  | _ => false
  end.

Definition on_post_base64 (req : Request) (resp : Response) (id : option Z)
  : M Response :=
  if id_given id then
    ret (response resp HTTPStatus_METHOD_NOT_ALLOWED None None)
  else
    let (session, resp) := get_session req resp in
    match session with
    | None => ret resp
    | Some session =>
        '(base64_info, file_name, error_message) <- get_base64_info req ;;
        if negb (truthy base64_info) then
          ret (response resp HTTPStatus_BAD_REQUEST None error_message)
        else
          base64_decoded <- decode_base64_file base64_info ;;
          mimetype <- get_mimetype base64_decoded ;;
          checked <- try_except
                       (check_if_valid_content_type mimetype ;;; ret None)
                       is_ContentTypeNotAllowed
                       (fun e => ret (Some e)) ;;
          match checked with
          | Some e =>
              ret (response resp HTTPStatus_BAD_REQUEST None (Some (str_exn e)))
          | None =>
              let make_thumbnail := check_if_make_thumbnail req in
              let public_file := check_if_public_file req in
              let private_file := check_if_private_file req in
              '(file, thumbnail, code) <-
                 process_file file_name (Bytes base64_decoded) mimetype
                   (session_user session) false make_thumbnail public_file
                   private_file ;;
              let data := if truthy thumbnail then JList [file; thumbnail] else file in
              ret (response resp (StatusCode code) (Some data) None)
          end
    end.

End Controller.

(* ------------------------------------------------------------------ *)
(** ** Vocabulary of the statements                                    *)
(* ------------------------------------------------------------------ *)

(** The chunks a stream hands out before it reports its end with an
    empty read, and the bytes they carry: the upload itself. *)
Fixpoint delivered (chunks : list bytes) : list bytes :=
  match chunks with
  | [] => []
  | [] :: _ => []
  | chunk :: rest => chunk :: delivered rest
  end.

Definition stream_bytes (chunks : list bytes) : bytes :=
  join_bytes (delivered chunks).

(** [encode_to_base64]: [base64.b64encode(data)]. *)
Definition encode_to_base64 (data : bytes) : string := b64encode data.

Section Traces.

Context {models : Models}.

(** The trace of reading the given chunks, one read each. *)
Definition reads (chunks : list bytes) : list Event :=
  List.map (StreamRead CHUNK_SIZE) chunks.

Definition is_B64Decode (ev : Event) : bool :=
  match ev with B64Decode _ => true | _ => false end.

Definition is_CreateFile (ev : Event) : bool :=
  match ev with CreateFile _ => true | _ => false end.

(** The payload of the first [create_file] call of a trace: what is
    persisted as the primary file. *)
Fixpoint primary_content (tr : list Event) : option content :=
  match tr with
  | [] => None
  | CreateFile args :: _ => Some (file_content args)
  | _ :: rest => primary_content rest
  end.

(** The number of payload bytes the reads of a trace returned. *)
Fixpoint bytes_read (tr : list Event) : Z :=
  match tr with
  | [] => 0
  | StreamRead _ chunk :: rest => len_bytes chunk + bytes_read rest
  | _ :: rest => bytes_read rest
  end.

(** The arguments of the two [create_file] calls of [process_file]. *)
Definition primary_args (filename : json) (data : content) (content_type : string)
    (user : User) (encode_to_base64 public private : bool) : CreateArgs :=
  {| file_name := filename;
     file_content := data;
     file_type := content_type;
     is_thumbnail := 0;
     arg_encode_to_base64 := encode_to_base64;
     arg_user := user;
     arg_public := public;
     arg_private := private |}.

Definition thumbnail_args (name : string) (thumbnail_content : content)
    (content_type : string) (user : User) (encode_to_base64 public : bool)
  : CreateArgs :=
  {| file_name := JStr (thumbnail_name name);
     file_content := thumbnail_content;
     file_type := content_type;
     is_thumbnail := 1;
     arg_encode_to_base64 := encode_to_base64;
     arg_user := user;
     arg_public := public;
     arg_private := false |}.

Context {collab : Collaborators} {impl : FileAbstract}.

(** What a run of a handler persisted as the primary file. *)
Definition persisted (run : result Response * list Event) : option content :=
  primary_content (snd run).

(** The response of a request refused for its content type. *)
Definition type_refusal (self : FileController) (resp : Response) (invalid_type : string)
  : Response :=
  response resp HTTPStatus_BAD_REQUEST None
    (Some (str_exn (ContentTypeNotAllowed invalid_type (accepted_files self)))).

(** The reading of "refused before anything is decoded" on the base64
    path: a run that ends in a refusal for the content type has no decode
    in its trace. *)
Definition refused_before_decoding (self : FileController) (req : Request)
    (resp : Response) : Prop :=
  forall invalid_type tr,
    on_post_base64 self req resp None []
    = (Ok (type_refusal self (snd (get_session req resp)) invalid_type), tr) ->
    existsb is_B64Decode tr = false.

End Traces.

(* ------------------------------------------------------------------ *)
(** ** A concrete setting to run the controller in                     *)
(* ------------------------------------------------------------------ *)

Module Demo.

(** Responses are the three things [self.response] is given. *)
Record SimpleResponse : Type := {
  status : option Status;
  data : option json;
  error : option string
}.

Definition empty_response : SimpleResponse :=
  {| status := None; data := None; error := None |}.

(** Users and sessions are names, a saved file is its serialised form and
    an image is the bytes it was opened from. *)
#[export] Instance models : Models := {|
  User := string;
  Session := string;
  File := json;
  Image := bytes;
  Response := SimpleResponse
|}.

Definition starts_with (prefix data : bytes) : bool :=
  if list_eq_dec Byte.byte_eq_dec (firstn (List.length prefix) data) prefix
  then true else false.

Definition png_magic : bytes := [x89; x50; x4e; x47].
Definition jpeg_magic : bytes := [xff; xd8; xff].
Definition gif_magic : bytes := [x47; x49; x46].

(** The magic numbers filetype matches for three image kinds. *)
Definition guess (data : bytes) : option string :=
  if starts_with jpeg_magic data then Some "image/jpeg"
  else if starts_with png_magic data then Some "image/png"
  else if starts_with gif_magic data then Some "image/gif"
  else None.

Definition image_format (img : bytes) : json :=
  match guess img with
  | Some "image/jpeg" => JStr "JPEG"
  | Some "image/png" => JStr "PNG"
  | Some "image/gif" => JStr "GIF"
  | _ => JNull
  end.

Definition image_open (data : bytes) : result bytes :=
  match guess data with
  | Some _ => Ok data
  | None => Raise (LibraryError "cannot identify image file")
  end.

(** Saving with a quality setting keeps the first eight bytes, which
    stands for a lossy re-encoding; otherwise the bytes are kept. *)
Definition image_save (img : bytes) (format : json) (kwargs : list (string * json))
  : result bytes :=
  match dict_get kwargs "quality" with
  | JNull => Ok img
  | _ => Ok (firstn 8 img)
  end.

(** A reader for envelopes written as
    [{"file_name": "...", "base64": "..."}], cut at the double quotes. *)
Definition loads (raw : bytes) : result json :=
  match str_split dquote (string_of_list_byte raw) with
  | ["{"; k1; ": "; v1; ", "; k2; ": "; v2; "}"] => Ok (JDict [(k1, JStr v1); (k2, JStr v2)])
  | ["[]"] => Ok (JList [])
  | _ => Raise (LibraryError "Expecting value: line 1 column 1 (char 0)")
  end.

(** The session is the user named by the [token] parameter. *)
Definition session_of (req : Request) (resp : SimpleResponse)
  : option string * SimpleResponse :=
  match dict_get (params req) "token" with
  | JStr user => (Some user, resp)
  | _ => (None, {| status := Some (StatusCode 401); data := None;
                   error := Some "Unauthorized" |})
  end.

#[export] Instance collab : Collaborators := {|
  session_user := fun s => s;
  get_session := session_of;
  response := fun _ st d e => {| status := Some st; data := d; error := e |};
  serialize_model := fun f => f;
  json_loads := loads;
  b64decode := base64_b64decode;
  filetype_guess := guess;
  Image_open := image_open;
  Image_format := image_format;
  Image_thumbnail := fun img _ => Ok img;
  Image_save := image_save
|}.

Definition saved (args : CreateArgs) : json :=
  JDict [("name", file_name args); ("type", JStr (file_type args));
         ("is_thumbnail", JInt (is_thumbnail args))].

(** Three implementations of [create_file]: one that saves everything,
    one that saves nothing, and one that saves no thumbnail. *)
Definition saving : FileAbstract :=
  {| create_file := fun _ args => Ok (Some (saved args)) |}.

Definition failing : FileAbstract :=
  {| create_file := fun _ _ => Ok None |}.

Definition no_thumbnails : FileAbstract :=
  {| create_file := fun _ args =>
       if is_thumbnail args =? 0 then Ok (Some (saved args)) else Ok None |}.

Definition controller : FileController :=
  {| accepted_files := ["image/jpeg"; "image/png"; "application/pdf"];
     max_file_size := 16 |}.

Definition quoted (s : string) : string :=
  String dquote (s ++ String dquote EmptyString)%string.

Definition envelope (name b64 : string) : bytes :=
  bytes_of ("{" ++ quoted "file_name" ++ ": " ++ quoted name ++ ", "
            ++ quoted "base64" ++ ": " ++ quoted b64 ++ "}")%string.

Definition base64_request (name b64 : string) (thumbnail : bool) : Request :=
  {| params := ("token", JStr "alice")
               :: (if thumbnail then [("thumbnail", JStr "True")] else []);
     body := envelope name b64;
     media := Raise (LibraryError "Unsupported media type") |}.

Definition multipart_request (parts : list BodyPart) (thumbnail : bool) : Request :=
  {| params := ("token", JStr "alice")
               :: (if thumbnail then [("thumbnail", JStr "True")] else []);
     body := [];
     media := Ok parts |}.

(** The same collaborators with an image library that cannot resize. *)
Definition no_resize : Collaborators := {|
  session_user := fun s => s;
  get_session := session_of;
  response := fun _ st d e => {| status := Some st; data := d; error := e |};
  serialize_model := fun f => f;
  json_loads := loads;
  b64decode := base64_b64decode;
  filetype_guess := guess;
  Image_open := image_open;
  Image_format := image_format;
  Image_thumbnail := fun _ _ => Raise (LibraryError "image file is truncated");
  Image_save := image_save
|}.

(** A request whose body is the given text. *)
Definition raw_request (text : string) : Request :=
  {| params := [("token", JStr "alice")];
     body := bytes_of text;
     media := Raise (LibraryError "Unsupported media type") |}.

Definition png_bytes : bytes := (png_magic ++ bytes_of "pixels")%list.
Definition gif_bytes : bytes := (gif_magic ++ bytes_of "89a")%list.

End Demo.

(* ------------------------------------------------------------------ *)
(** ** Strings: counting and splitting                                 *)
(* ------------------------------------------------------------------ *)

Lemma slice_empty_range (s : string) (lo hi : Z) :
  hi <= lo -> slice s lo hi = EmptyString.
Proof.
  intros Hle. unfold slice.
  destruct (Z.leb_spec hi lo) as [_ | Hgt]; [reflexivity | lia].
Qed.

(** The range from the last index to the fifth from the end is empty
    for a string of any length, so nothing is counted in it. *)
Lemma str_count_backwards_range (s : string) (c : ascii) :
  str_count s c (-1) (-5) = 0.
Proof.
  unfold str_count. rewrite slice_empty_range; [reflexivity | ].
  unfold adjust_index.
  change (-1 <? 0) with true. change (-5 <? 0) with true. cbv iota. lia.
Qed.

Lemma get_base64_file_length_str (s : string) :
  get_base64_file_length (JStr s)
  = Ok (inject_Z (len_str s * 3) / inject_Z 4 - inject_Z 0)%Q.
Proof.
  unfold get_base64_file_length. now rewrite str_count_backwards_range.
Qed.

Lemma bytes_ind3 (P : bytes -> Prop) :
  P [] ->
  (forall a, P [a]) ->
  (forall a b, P [a; b]) ->
  (forall a b c rest, P rest -> P (a :: b :: c :: rest)) ->
  forall data, P data.
Proof.
  intros H0 H1 H2 H3.
  fix IH 1. intros [ | a [ | b [ | c rest]]].
  - exact H0.
  - apply H1.
  - apply H2.
  - apply H3, IH.
Qed.

(** An encoding is four characters for every started group of three
    bytes. *)
Lemma b64encode_length (data : bytes) :
  len_str (b64encode data) = 4 * ((len_bytes data + 2) / 3).
Proof.
  unfold len_str, len_bytes.
  induction data as [ | a | a b | a b c rest IH] using bytes_ind3;
    try reflexivity.
  cbn [b64encode String.length List.length].
  replace (Z.of_nat (S (S (S (List.length rest)))) + 2)
    with (Z.of_nat (List.length rest) + 2 + 1 * 3) by lia.
  rewrite Z.div_add by lia. lia.
Qed.

(** On an encoding of [n] bytes the estimate is [n] rounded up to a
    multiple of three: the padding is never taken off. *)
Lemma get_base64_file_length_b64encode (data : bytes) :
  exists q,
    get_base64_file_length (JStr (b64encode data)) = Ok q
    /\ (q == inject_Z (3 * ((len_bytes data + 2) / 3)))%Q.
Proof.
  eexists. split; [apply get_base64_file_length_str | ].
  rewrite b64encode_length.
  generalize ((len_bytes data + 2) / 3). intros k.
  unfold Qeq, Qminus, Qdiv, Qmult, Qplus, Qinv, Qopp, inject_Z.
  cbn [Qnum Qden]. lia.
Qed.

Lemma str_split_no_sep (sep : ascii) (s : string) :
  str_mem sep s = false -> str_split sep s = [s].
Proof.
  induction s as [ | a rest IH]; simpl; [reflexivity | ].
  intros H. apply orb_false_iff in H as [Ha Hrest].
  rewrite Ha, (IH Hrest). reflexivity.
Qed.

Lemma str_split_at_sep (sep : ascii) (a b : string) :
  str_mem sep a = false ->
  str_split sep (a ++ String sep b) = a :: str_split sep b.
Proof.
  induction a as [ | x rest IH]; simpl.
  - intros _. now rewrite Ascii.eqb_refl.
  - intros H. apply orb_false_iff in H as [Hx Hrest].
    rewrite Hx, (IH Hrest). reflexivity.
Qed.

(** What the code does with a name without a dot, with one dot, and
    with more: the third segment onward is dropped. *)
Lemma thumbnail_name_no_dot (filename : string) :
  str_mem "." filename = false ->
  thumbnail_name filename = (filename ++ "_thumbnail")%string.
Proof.
  intros H. unfold thumbnail_name. rewrite (str_split_no_sep _ _ H). simpl.
  induction filename; simpl; congruence.
Qed.

Lemma thumbnail_name_one_dot (base ext : string) :
  str_mem "." base = false ->
  str_mem "." ext = false ->
  thumbnail_name (base ++ String "." ext)
  = (base ++ "_thumbnail" ++ String "." ext)%string.
Proof.
  intros Hbase Hext. unfold thumbnail_name.
  rewrite (str_split_at_sep _ _ _ Hbase), (str_split_no_sep _ _ Hext).
  reflexivity.
Qed.

Lemma thumbnail_name_more_dots (base ext more : string) :
  str_mem "." base = false ->
  str_mem "." ext = false ->
  thumbnail_name (base ++ String "." (ext ++ String "." more))
  = (base ++ "_thumbnail" ++ String "." ext)%string.
Proof.
  intros Hbase Hext. unfold thumbnail_name.
  rewrite (str_split_at_sep _ _ _ Hbase), (str_split_at_sep _ _ _ Hext).
  cbn [nth List.length].
  replace (1 <? Z.of_nat (S (S (List.length (str_split "." more))))) with true
    by (symmetry; apply Z.ltb_lt; lia).
  reflexivity.
Qed.

(** C1: on the padded encoding of the one byte [A] the estimate is 3 and
    not the decoded length 1: the count of [=] is taken over an empty
    range, so padding is never subtracted. *)
Theorem get_base64_file_length_keeps_padding :
  b64encode (bytes_of "A") = "QQ=="
  /\ base64_b64decode (JStr "QQ==") = Ok (bytes_of "A")
  /\ len_bytes (bytes_of "A") = 1
  /\ str_count "QQ==" "=" (-1) (-5) = 0
  /\ exists q, get_base64_file_length (JStr "QQ==") = Ok q
               /\ (q == inject_Z 3)%Q /\ ~ (q == inject_Z 1)%Q.
Proof.
  repeat split; try reflexivity.
  eexists. split; [reflexivity | split].
  - reflexivity.
  - intros H. discriminate H.
Qed.

(** The two names of the specification's scenario. *)
Lemma thumbnail_name_cat :
  thumbnail_name "cat.jpg" = "cat_thumbnail.jpg"
  /\ thumbnail_name "cat" = "cat_thumbnail".
Proof. split; reflexivity. Qed.

(** Up to one dot the code builds the name the specification words. *)
Lemma thumbnail_name_meets_spec (base ext : string) :
  str_mem "." base = false ->
  str_mem "." ext = false ->
  thumbnail_name base = spec_thumbnail_name base
  /\ thumbnail_name (base ++ String "." ext)
     = spec_thumbnail_name (base ++ String "." ext).
Proof.
  intros Hbase Hext. split.
  - rewrite (thumbnail_name_no_dot _ Hbase). unfold spec_thumbnail_name.
    now rewrite (str_split_no_sep _ _ Hbase).
  - rewrite (thumbnail_name_one_dot _ _ Hbase Hext). unfold spec_thumbnail_name.
    rewrite (str_split_at_sep _ _ _ Hbase), (str_split_no_sep _ _ Hext).
    reflexivity.
Qed.

(** C3: a name with two dots loses its extension: the thumbnail of
    [archive.tar.gz] is named [archive_thumbnail.tar], where base name and
    extension give [archive.tar_thumbnail.gz]. *)
Theorem thumbnail_name_two_dots :
  thumbnail_name "archive.tar.gz" = "archive_thumbnail.tar"
  /\ spec_thumbnail_name "archive.tar.gz" = "archive.tar_thumbnail.gz"
  /\ thumbnail_name "archive.tar.gz" <> spec_thumbnail_name "archive.tar.gz".
Proof.
  repeat split; try reflexivity. intros H. discriminate H.
Qed.

(* ------------------------------------------------------------------ *)
(** ** The chunked reader                                              *)
(* ------------------------------------------------------------------ *)

Local Open Scope list_scope.

Ltac run_step :=
  unfold bind, ret, raise, emit, lift, try_except; cbv beta iota zeta.

Lemma len_bytes_app (a b : bytes) :
  len_bytes (a ++ b) = len_bytes a + len_bytes b.
Proof. unfold len_bytes. rewrite length_app. lia. Qed.

Lemma len_bytes_nonneg (b : bytes) : 0 <= len_bytes b.
Proof. unfold len_bytes. lia. Qed.

Lemma len_bytes_nonempty (a : byte) (b : bytes) : 0 < len_bytes (a :: b).
Proof. unfold len_bytes. simpl List.length. lia. Qed.

Lemma stream_bytes_cons (a : byte) (chunk : bytes) (rest : list bytes) :
  stream_bytes ((a :: chunk) :: rest) = ((a :: chunk) ++ stream_bytes rest)%list.
Proof. reflexivity. Qed.

(** A stream that never reads empty before its end delivers all of its
    chunks. *)
Lemma delivered_nonempty (chunks : list bytes) :
  Forall (fun chunk => chunk <> []) chunks -> delivered chunks = chunks.
Proof.
  induction 1 as [ | chunk rest Hne _ IH]; [reflexivity | ].
  destruct chunk; [congruence | ]. simpl. now rewrite IH.
Qed.

Section Reader.

Context {models : Models} {collab : Collaborators} {impl : FileAbstract}.

Variable self : FileController.

(** Within the limit the loop reads every delivered chunk, then the
    empty one, and hands back the chunks in order. *)
Lemma read_chunks_within_limit (chunks : list bytes) :
  forall (read_so_far : Z) (data : list bytes) (tr : list Event),
    read_so_far + len_bytes (stream_bytes chunks) <= max_file_size self ->
    read_chunks self chunks read_so_far data tr
    = (Ok (data ++ delivered chunks)%list,
       (tr ++ reads (delivered chunks) ++ [StreamRead CHUNK_SIZE []])%list).
Proof.
  induction chunks as [ | chunk rest IH]; intros read_so_far data tr Hle.
  - simpl. run_step. now rewrite app_nil_r.
  - destruct chunk as [ | a chunk].
    + simpl. run_step. now rewrite app_nil_r.
    + rewrite stream_bytes_cons, len_bytes_app in Hle.
      pose proof (len_bytes_nonneg (stream_bytes rest)) as Hrest.
      cbn [read_chunks delivered]. run_step.
      destruct (Z.gtb_spec (read_so_far + len_bytes (a :: chunk)) (max_file_size self))
        as [Hgt | _]; [lia | ].
      rewrite IH by lia.
      unfold reads. cbn [List.map]. now rewrite <- !app_assoc.
Qed.

(** Over the limit the loop stops at the first chunk that takes the
    count past it: the chunks before fit, that chunk does not, and
    nothing after it is read. *)
Lemma read_chunks_over_limit (chunks : list bytes) :
  forall (read_so_far : Z) (data : list bytes) (tr : list Event),
    read_so_far <= max_file_size self ->
    read_so_far + len_bytes (stream_bytes chunks) > max_file_size self ->
    exists pre chunk post,
      chunks = (pre ++ chunk :: post)%list
      /\ read_so_far + len_bytes (join_bytes pre) <= max_file_size self
      /\ max_file_size self < read_so_far + len_bytes (join_bytes pre) + len_bytes chunk
      /\ read_chunks self chunks read_so_far data tr
         = (Raise FileSizeGreaterThanAllowed, (tr ++ reads (pre ++ [chunk]))%list).
Proof.
  induction chunks as [ | chunk rest IH]; intros read_so_far data tr Hle Hgt.
  - unfold stream_bytes in Hgt. simpl in Hgt. unfold len_bytes in Hgt. simpl in Hgt. lia.
  - destruct chunk as [ | a chunk].
    + unfold stream_bytes in Hgt. simpl in Hgt. unfold len_bytes in Hgt. simpl in Hgt. lia.
    + rewrite stream_bytes_cons, len_bytes_app in Hgt.
      cbn [read_chunks]. run_step.
      destruct (Z.gtb_spec (read_so_far + len_bytes (a :: chunk)) (max_file_size self))
        as [Hover | Hfit].
      * exists [], (a :: chunk), rest. simpl.
        change (len_bytes []) with 0. repeat split; try lia.
      * destruct (IH (read_so_far + len_bytes (a :: chunk))
                    (data ++ [a :: chunk])%list
                    (tr ++ [StreamRead CHUNK_SIZE (a :: chunk)])%list)
          as (pre & c & post & Hsplit & Hpre & Hc & Hrun); [lia | lia | ].
        exists ((a :: chunk) :: pre), c, post.
        assert (Hjoin : len_bytes (join_bytes ((a :: chunk) :: pre))
                        = len_bytes (a :: chunk) + len_bytes (join_bytes pre)).
        { unfold join_bytes. cbn [List.concat]. apply len_bytes_app. }
        rewrite Hjoin. repeat split; try lia.
        -- now rewrite Hsplit.
        -- etransitivity; [exact Hrun | ].
           unfold reads. cbn [List.map app]. now rewrite <- app_assoc.
Qed.

Lemma check_if_valid_content_type_accepted (content_type : string) (tr : list Event) :
  str_in content_type (accepted_files self) = true ->
  check_if_valid_content_type self content_type tr = (Ok tt, tr).
Proof. intros H. unfold check_if_valid_content_type. now rewrite H. Qed.

Lemma check_if_valid_content_type_refused (content_type : string) (tr : list Event) :
  str_in content_type (accepted_files self) = false ->
  check_if_valid_content_type self content_type tr
  = (Raise (ContentTypeNotAllowed content_type (accepted_files self)), tr).
Proof. intros H. unfold check_if_valid_content_type. now rewrite H. Qed.

(** Within the limit [process_stream] passes on the whole upload. *)
Lemma process_stream_payload (part : BodyPart) (tr : list Event) :
  str_in (content_type part) (accepted_files self) = true ->
  len_bytes (stream_bytes (stream part)) <= max_file_size self ->
  let after := tr ++ reads (delivered (stream part)) ++ [StreamRead CHUNK_SIZE []] in
  process_stream self part tr
  = if str_in (content_type part) IMAGE_EXTENSIONS
    then compress_image (stream_bytes (stream part)) after
    else (Ok (Bytes (stream_bytes (stream part))), after).
Proof.
  intros Hok Hle after. unfold process_stream. run_step.
  rewrite (check_if_valid_content_type_accepted _ _ Hok).
  rewrite read_chunks_within_limit by lia.
  destruct (str_in (content_type part) IMAGE_EXTENSIONS); reflexivity.
Qed.

(** What [compress_image] returns depends on the bytes alone. *)
Lemma compress_image_result (image_data : bytes) (tr tr' : list Event) :
  fst (compress_image image_data tr) = fst (compress_image image_data tr').
Proof.
  unfold compress_image. run_step.
  destruct (Image_open image_data) as [img | e]; [ | reflexivity].
  destruct (Image_save img (Image_format img) _); reflexivity.
Qed.

(** Two streams that cut the same upload differently give the same
    result. *)
Lemma process_stream_chunking (part part' : BodyPart) (tr : list Event) :
  content_type part' = content_type part ->
  stream_bytes (stream part') = stream_bytes (stream part) ->
  str_in (content_type part) (accepted_files self) = true ->
  len_bytes (stream_bytes (stream part)) <= max_file_size self ->
  fst (process_stream self part' tr) = fst (process_stream self part tr).
Proof.
  intros Htype Hbytes Hok Hle.
  rewrite (process_stream_payload part tr Hok Hle).
  rewrite process_stream_payload; rewrite ?Htype, ?Hbytes; try assumption.
  destruct (str_in (content_type part) IMAGE_EXTENSIONS); [ | reflexivity].
  apply compress_image_result.
Qed.

(** C6: an upload within the limit is read whole, however the stream
    cuts it into chunks: the loop returns the delivered chunks, and
    [process_stream] returns their bytes unchanged for a type that is not
    an image type and hands exactly these bytes to [compress_image] for an
    image type. *)
Theorem process_stream_within_limit (part : BodyPart) (tr : list Event) :
  str_in (content_type part) (accepted_files self) = true ->
  len_bytes (stream_bytes (stream part)) <= max_file_size self ->
  let after := tr ++ reads (delivered (stream part)) ++ [StreamRead CHUNK_SIZE []] in
  read_chunks self (stream part) 0 [] tr = (Ok (delivered (stream part)), after)
  /\ join_bytes (delivered (stream part)) = stream_bytes (stream part)
  /\ (str_in (content_type part) IMAGE_EXTENSIONS = false ->
      process_stream self part tr = (Ok (Bytes (stream_bytes (stream part))), after))
  /\ (str_in (content_type part) IMAGE_EXTENSIONS = true ->
      process_stream self part tr = compress_image (stream_bytes (stream part)) after).
Proof.
  intros Hok Hle after.
  split; [now rewrite read_chunks_within_limit by lia | ].
  split; [reflexivity | ].
  split; intros Himg; rewrite (process_stream_payload part tr Hok Hle), Himg;
    reflexivity.
Qed.

(** C5: an upload over the limit is refused with
    [FileSizeGreaterThanAllowed].  The count is checked after each chunk:
    the reads stop at the first chunk that takes it past the limit, and
    whatever the declared type the reader never returns a payload. *)
Theorem process_stream_over_limit (part : BodyPart) (tr : list Event) :
  0 <= max_file_size self ->
  len_bytes (stream_bytes (stream part)) > max_file_size self ->
  (str_in (content_type part) (accepted_files self) = true ->
   exists pre chunk post,
     stream part = (pre ++ chunk :: post)%list
     /\ len_bytes (join_bytes pre) <= max_file_size self
     /\ max_file_size self < len_bytes (join_bytes pre) + len_bytes chunk
     /\ process_stream self part tr
        = (Raise FileSizeGreaterThanAllowed, (tr ++ reads (pre ++ [chunk]))%list))
  /\ (forall payload tr', process_stream self part tr <> (Ok payload, tr')).
Proof.
  intros Hmax Hgt.
  destruct (read_chunks_over_limit (stream part) 0 [] tr Hmax)
    as (pre & chunk & post & Hsplit & Hpre & Hchunk & Hrun); [lia | ].
  split.
  - intros Hok. exists pre, chunk, post.
    repeat split; try lia; try assumption.
    unfold process_stream. run_step.
    now rewrite (check_if_valid_content_type_accepted _ _ Hok), Hrun.
  - intros payload tr'. unfold process_stream. run_step.
    destruct (str_in (content_type part) (accepted_files self)) eqn:Hok.
    + rewrite (check_if_valid_content_type_accepted _ _ Hok), Hrun. discriminate.
    + rewrite (check_if_valid_content_type_refused _ _ Hok). discriminate.
Qed.

End Reader.

(* ------------------------------------------------------------------ *)
(** ** Persisting: [process_file]                                      *)
(* ------------------------------------------------------------------ *)

Section Persisting.

Context {models : Models} {collab : Collaborators} {impl : FileAbstract}.

Lemma primary_content_app (before after : list Event) :
  existsb is_CreateFile before = false ->
  primary_content (before ++ after) = primary_content after.
Proof.
  induction before as [ | ev before IH]; [reflexivity | ].
  destruct ev; simpl; try exact IH. discriminate.
Qed.

Lemma existsb_CreateFile_reads (chunks : list bytes) :
  existsb is_CreateFile (reads chunks) = false.
Proof. induction chunks; simpl; auto. Qed.

Lemma create_thumbnail_extends (image_data : content) (filename : json)
    (content_type : string) (encode_to_base64 : bool) (user : User)
    (public private : bool) (tr : list Event) :
  exists rest,
    snd (create_thumbnail image_data filename content_type encode_to_base64
           user public private tr) = tr ++ rest.
Proof.
  unfold create_thumbnail, create_thumbnail_image, call_create_file. run_step.
  destruct (Image_open (bytes_of_content image_data)) as [img | e];
    [ | eexists; reflexivity].
  destruct (Image_thumbnail img (640, 640)) as [img' | e];
    [ | eexists; reflexivity].
  destruct (Image_save img' (Image_format img') []) as [b | e];
    [ | eexists; reflexivity].
  destruct filename; simpl; try (eexists; reflexivity).
  eexists. now rewrite <- app_assoc.
Qed.

(** The first thing [process_file] does is the primary [create_file]
    call, with the payload it was given. *)
Lemma process_file_extends (filename : json) (data : content) (content_type : string)
    (user : User) (encode_to_base64 make_thumbnail public private : bool)
    (tr : list Event) :
  exists rest,
    snd (process_file filename data content_type user encode_to_base64
           make_thumbnail public private tr)
    = tr ++ CreateFile (primary_args filename data content_type user
                          encode_to_base64 public private) :: rest.
Proof.
  unfold process_file, call_create_file. run_step.
  fold (primary_args filename data content_type user encode_to_base64 public private).
  set (args := primary_args _ _ _ _ _ _ _).
  destruct (create_file tr args) as [[file | ] | e];
    try (exists []; reflexivity).
  destruct (make_thumbnail && str_in content_type IMAGE_EXTENSIONS);
    [ | exists []; reflexivity].
  destruct (create_thumbnail_extends data filename content_type encode_to_base64
              user public private (tr ++ [CreateFile args])) as [rest Hrest].
  exists rest.
  destruct (create_thumbnail data filename content_type encode_to_base64
              user public private (tr ++ [CreateFile args])) as [[thumb | e] tr'];
    simpl in *; subst tr'; now rewrite <- app_assoc.
Qed.

(** C7: when the primary [create_file] call saves nothing,
    [process_file] returns the error entry with status 500 and makes no
    further call, so no thumbnail is attempted; when the primary call
    succeeds and the [create_file] call for the thumbnail saves nothing,
    the thumbnail slot holds an error entry and the primary result and its
    status 201 stand. *)
Theorem process_file_failures (filename : json) (data : content)
    (content_type : string) (user : User)
    (encode_to_base64 make_thumbnail public private : bool) (tr : list Event) :
  let primary := primary_args filename data content_type user
                   encode_to_base64 public private in
  (create_file tr primary = Ok None ->
   process_file filename data content_type user encode_to_base64
     make_thumbnail public private tr
   = (Ok (JDict [("Filename", filename); ("Error", JStr "problem saving to db")],
          JNull, 500),
      tr ++ [CreateFile primary]))
  /\ (forall file name img img' b,
        let thumbnail := thumbnail_args name (BytesIO b) content_type user
                           encode_to_base64 public in
        let opened := tr ++ [CreateFile primary; ImageOpen (bytes_of_content data)] in
        create_file tr primary = Ok (Some file) ->
        make_thumbnail = true ->
        str_in content_type IMAGE_EXTENSIONS = true ->
        filename = JStr name ->
        Image_open (bytes_of_content data) = Ok img ->
        Image_thumbnail img (640, 640) = Ok img' ->
        Image_save img' (Image_format img') [] = Ok b ->
        create_file opened thumbnail = Ok None ->
        process_file filename data content_type user encode_to_base64
          make_thumbnail public private tr
        = (Ok (serialize_model file,
               JDict [("Filename_thumbnail", filename);
                      ("error", JStr "problem saving to db")],
               201),
           opened ++ [CreateFile thumbnail])).
Proof.
  intros primary. split.
  - intros Hfail. unfold primary, primary_args in Hfail.
    unfold process_file, call_create_file. run_step.
    now rewrite Hfail.
  - intros file name img img' b thumbnail opened Hfile Hmake Himg Hname
      Hopen Hthumb Hsave Hfail.
    unfold opened, thumbnail, primary, primary_args, thumbnail_args in *.
    unfold process_file, call_create_file. run_step.
    rewrite Hfile, Hmake, Himg. cbn [andb].
    unfold create_thumbnail, create_thumbnail_image, call_create_file. run_step.
    rewrite Hopen, Hthumb, Hsave. subst filename.
    rewrite <- app_assoc. cbn [app].
    now rewrite Hfail.
Qed.

End Persisting.

(* ------------------------------------------------------------------ *)
(** ** The handlers                                                    *)
(* ------------------------------------------------------------------ *)

Section Handlers.

Context {models : Models} {collab : Collaborators} {impl : FileAbstract}.

Variable self : FileController.

(** Reading the envelope leaves one event, whatever it returns. *)
Lemma get_base64_info_trace (req : Request) (tr : list Event) :
  snd (get_base64_info self req tr) = tr ++ [BodyRead].
Proof.
  unfold get_base64_info. run_step.
  destruct (json_loads (body req)) as [parsed | e]; [ | reflexivity].
  destruct parsed as [ | b | z | s | l | d]; try reflexivity.
  destruct (negb (truthy (dict_get d "file_name"))
            || negb (truthy (dict_get d "base64"))); [reflexivity | ].
  destruct (get_base64_file_length (dict_get d "base64")) as [q | e];
    [ | reflexivity].
  destruct (negb (Qle_bool q (inject_Z (max_file_size self)))); reflexivity.
Qed.

(** The stream path up to [process_file]. *)
Lemma on_post_first_part (req : Request) (resp resp' : Response) (id : option Z)
    (session : Session) (part : BodyPart) (more : list BodyPart)
    (tr tr' : list Event) (payload : content) :
  id_given id = false ->
  get_session req resp = (Some session, resp') ->
  media req = Ok (part :: more) ->
  process_stream self part tr = (Ok payload, tr') ->
  exists rest,
    snd (on_post self req resp id tr)
    = tr' ++ CreateFile (primary_args (filename part) payload (content_type part)
                           (session_user session) false
                           (check_if_public_file req) (check_if_private_file req))
          :: rest.
Proof.
  intros Hid Hsession Hmedia Hstream.
  unfold on_post. rewrite Hid, Hsession, Hmedia.
  unfold on_post_loop. run_step. rewrite Hstream.
  destruct (process_file_extends (filename part) payload (content_type part)
              (session_user session) false (check_if_make_thumbnail req)
              (check_if_public_file req) (check_if_private_file req) tr')
    as [rest Hrest].
  exists rest.
  destruct (process_file (filename part) payload (content_type part)
              (session_user session) false (check_if_make_thumbnail req)
              (check_if_public_file req) (check_if_private_file req) tr')
    as [[[[file_data thumbnail_data] code] | e] tr''];
    simpl in Hrest; subst tr''; reflexivity.
Qed.

(** The base64 path up to the content-type check: the envelope is read,
    the string decoded and the type guessed from the decoded bytes. *)
Lemma on_post_base64_sniffed (req : Request) (resp resp' : Response) (id : option Z)
    (session : Session) (base64_info file_name : json) (error_message : option string)
    (decoded : bytes) (tr : list Event) :
  id_given id = false ->
  get_session req resp = (Some session, resp') ->
  fst (get_base64_info self req tr) = Ok (base64_info, file_name, error_message) ->
  truthy base64_info = true ->
  b64decode base64_info = Ok decoded ->
  let sniffed := tr ++ [BodyRead; B64Decode base64_info; FiletypeGuess decoded] in
  on_post_base64 self req resp id tr
  = match filetype_guess decoded with
    | None =>
        (Raise (AttributeError "'NoneType' object has no attribute 'mime'"), sniffed)
    | Some mimetype =>
        if str_in mimetype (accepted_files self) then
          match process_file file_name (Bytes decoded) mimetype (session_user session)
                  false (check_if_make_thumbnail req) (check_if_public_file req)
                  (check_if_private_file req) sniffed with
          | (Ok (file, thumbnail, code), tr') =>
              (Ok (response resp' (StatusCode code)
                     (Some (if truthy thumbnail then JList [file; thumbnail] else file))
                     None), tr')
          | (Raise e, tr') => (Raise e, tr')
          end
        else (Ok (type_refusal self resp' mimetype), sniffed)
    end.
Proof.
  intros Hid Hsession Hinfo Htruthy Hdecode sniffed.
  pose proof (get_base64_info_trace req tr) as Htrace.
  unfold on_post_base64. rewrite Hid, Hsession.
  unfold bind at 1.
  destruct (get_base64_info self req tr) as [r tr1].
  simpl in Hinfo, Htrace. subst r tr1.
  rewrite Htruthy. cbn [negb].
  unfold decode_base64_file, get_mimetype. run_step. rewrite Hdecode.
  unfold sniffed. rewrite <- !app_assoc. cbn [app].
  destruct (filetype_guess decoded) as [mimetype | ]; [ | reflexivity].
  unfold check_if_valid_content_type, type_refusal. run_step.
  destruct (str_in mimetype (accepted_files self)); cbn [negb]; [ | reflexivity].
  destruct (process_file file_name (Bytes decoded) mimetype (session_user session)
              false (check_if_make_thumbnail req) (check_if_public_file req)
              (check_if_private_file req) _)
    as [[[[file thumbnail] code] | e] tr']; reflexivity.
Qed.

(** A decode error is not handled: it leaves the handler as it is. *)
Lemma on_post_base64_decode_error (req : Request) (resp resp' : Response)
    (id : option Z) (session : Session) (base64_info file_name : json)
    (error_message : option string) (e : exn) (tr : list Event) :
  id_given id = false ->
  get_session req resp = (Some session, resp') ->
  fst (get_base64_info self req tr) = Ok (base64_info, file_name, error_message) ->
  truthy base64_info = true ->
  b64decode base64_info = Raise e ->
  on_post_base64 self req resp id tr
  = (Raise e, tr ++ [BodyRead; B64Decode base64_info]).
Proof.
  intros Hid Hsession Hinfo Htruthy Hdecode.
  pose proof (get_base64_info_trace req tr) as Htrace.
  unfold on_post_base64. rewrite Hid, Hsession.
  unfold bind at 1.
  destruct (get_base64_info self req tr) as [r tr1].
  simpl in Hinfo, Htrace. subst r tr1.
  rewrite Htruthy. cbn [negb].
  unfold decode_base64_file. run_step. rewrite Hdecode.
  now rewrite <- app_assoc.
Qed.

(** When the primary file cannot be saved, [on_post] answers with the
    status 500 and the error entry as the only item. *)
Lemma on_post_primary_failure (req : Request) (resp resp' : Response) (id : option Z)
    (session : Session) (part : BodyPart) (more : list BodyPart)
    (tr tr' : list Event) (payload : content) :
  let primary := primary_args (filename part) payload (content_type part)
                   (session_user session) false
                   (check_if_public_file req) (check_if_private_file req) in
  id_given id = false ->
  get_session req resp = (Some session, resp') ->
  media req = Ok (part :: more) ->
  process_stream self part tr = (Ok payload, tr') ->
  create_file tr' primary = Ok None ->
  on_post self req resp id tr
  = (Ok (response resp' (StatusCode 500)
           (Some (JList [JDict [("Filename", filename part);
                                ("Error", JStr "problem saving to db")]]))
           None),
     tr' ++ [CreateFile primary]).
Proof.
  intros primary Hid Hsession Hmedia Hstream Hfail.
  unfold primary, primary_args in Hfail.
  unfold on_post. rewrite Hid, Hsession, Hmedia.
  unfold on_post_loop. run_step. rewrite Hstream.
  unfold process_file, call_create_file. run_step.
  now rewrite Hfail.
Qed.

(** C9: a form without parts, from a request with a session, never
    enters the loop that assigns [code] and [data]; reading [code] for the
    response raises [UnboundLocalError] and the handler ends in it. *)
Theorem on_post_without_parts (req : Request) (resp resp' : Response)
    (id : option Z) (session : Session) (tr : list Event) :
  id_given id = false ->
  get_session req resp = (Some session, resp') ->
  media req = Ok [] ->
  on_post self req resp id tr = (Raise (UnboundLocalError "code"), tr).
Proof.
  intros Hid Hsession Hmedia.
  unfold on_post. now rewrite Hid, Hsession, Hmedia.
Qed.

(** C10: when the decoded bytes are not recognised, nothing is
    answered: the missing guess has no [mime], the [AttributeError] is
    raised before the content-type check and its handler, and it leaves
    [on_post_base64]. *)
Theorem on_post_base64_unrecognised (req : Request) (resp resp' : Response)
    (id : option Z) (session : Session) (base64_info file_name : json)
    (error_message : option string) (decoded : bytes) (tr : list Event) :
  id_given id = false ->
  get_session req resp = (Some session, resp') ->
  fst (get_base64_info self req tr) = Ok (base64_info, file_name, error_message) ->
  truthy base64_info = true ->
  b64decode base64_info = Ok decoded ->
  filetype_guess decoded = None ->
  on_post_base64 self req resp id tr
  = (Raise (AttributeError "'NoneType' object has no attribute 'mime'"),
     tr ++ [BodyRead; B64Decode base64_info; FiletypeGuess decoded]).
Proof.
  intros Hid Hsession Hinfo Htruthy Hdecode Hguess.
  rewrite (on_post_base64_sniffed req resp resp' id session base64_info file_name
             error_message decoded tr Hid Hsession Hinfo Htruthy Hdecode).
  now rewrite Hguess.
Qed.

End Handlers.

(* ------------------------------------------------------------------ *)
(** ** Order of validation, and what is persisted                      *)
(* ------------------------------------------------------------------ *)

Section Order.

Context {models : Models} {collab : Collaborators} {impl : FileAbstract}.

Variable self : FileController.

Lemma process_stream_refused (part : BodyPart) (tr : list Event) :
  str_in (content_type part) (accepted_files self) = false ->
  process_stream self part tr
  = (Raise (ContentTypeNotAllowed (content_type part) (accepted_files self)), tr).
Proof.
  intros Hno. unfold process_stream. run_step.
  now rewrite (check_if_valid_content_type_refused self _ _ Hno).
Qed.

(** C2, as the code has it: on the stream path a type that is not
    accepted is refused with [ContentTypeNotAllowed] before the stream is
    read, and [on_post] answers with the refusal on an unchanged trace; on
    the base64 path the type is the one guessed from the decoded bytes, so
    the refusal comes after the envelope was read, the string decoded and
    the bytes sniffed. *)
Theorem content_type_refusal_order :
  (forall (part : BodyPart) (tr : list Event),
      str_in (content_type part) (accepted_files self) = false ->
      process_stream self part tr
      = (Raise (ContentTypeNotAllowed (content_type part) (accepted_files self)), tr))
  /\ (forall (req : Request) (resp resp' : Response) (id : option Z)
             (session : Session) (part : BodyPart) (more : list BodyPart)
             (tr : list Event),
         id_given id = false ->
         get_session req resp = (Some session, resp') ->
         media req = Ok (part :: more) ->
         str_in (content_type part) (accepted_files self) = false ->
         on_post self req resp id tr
         = (Ok (type_refusal self resp' (content_type part)), tr))
  /\ (forall (req : Request) (resp resp' : Response) (id : option Z)
             (session : Session) (base64_info file_name : json)
             (error_message : option string) (decoded : bytes) (mimetype : string)
             (tr : list Event),
         id_given id = false ->
         get_session req resp = (Some session, resp') ->
         fst (get_base64_info self req tr)
         = Ok (base64_info, file_name, error_message) ->
         truthy base64_info = true ->
         b64decode base64_info = Ok decoded ->
         filetype_guess decoded = Some mimetype ->
         str_in mimetype (accepted_files self) = false ->
         on_post_base64 self req resp id tr
         = (Ok (type_refusal self resp' mimetype),
            tr ++ [BodyRead; B64Decode base64_info; FiletypeGuess decoded])).
Proof.
  split; [exact process_stream_refused | split].
  - intros req resp resp' id session part more tr Hid Hsession Hmedia Hno.
    unfold on_post. rewrite Hid, Hsession, Hmedia.
    unfold on_post_loop. run_step.
    now rewrite (process_stream_refused part tr Hno).
  - intros req resp resp' id session base64_info file_name error_message decoded
      mimetype tr Hid Hsession Hinfo Htruthy Hdecode Hguess Hno.
    rewrite (on_post_base64_sniffed self req resp resp' id session base64_info
               file_name error_message decoded tr Hid Hsession Hinfo Htruthy Hdecode).
    now rewrite Hguess, Hno.
Qed.

Lemma compress_image_saved (image_data b : bytes) (img : Image) (tr : list Event) :
  Image_open image_data = Ok img ->
  Image_save img (Image_format img) [("optimize", JBool true); ("quality", JInt 65)]
  = Ok b ->
  compress_image image_data tr = (Ok (BytesIO b), tr ++ [ImageOpen image_data]).
Proof.
  intros Hopen Hsave. unfold compress_image. run_step.
  now rewrite Hopen, Hsave.
Qed.

(** C8: what the primary [create_file] call is given.  From a stream,
    an accepted image is persisted as the buffer [compress_image] saved
    and any other accepted type as the bytes read; from a base64 envelope
    the decoded bytes are persisted as they are, image or not. *)
Theorem persisted_primary_content :
  (forall (req : Request) (resp resp' : Response) (id : option Z) (session : Session)
          (part : BodyPart) (more : list BodyPart) (img : Image) (b : bytes),
      id_given id = false ->
      get_session req resp = (Some session, resp') ->
      media req = Ok (part :: more) ->
      str_in (content_type part) (accepted_files self) = true ->
      len_bytes (stream_bytes (stream part)) <= max_file_size self ->
      str_in (content_type part) IMAGE_EXTENSIONS = true ->
      Image_open (stream_bytes (stream part)) = Ok img ->
      Image_save img (Image_format img)
        [("optimize", JBool true); ("quality", JInt 65)] = Ok b ->
      persisted (on_post self req resp id []) = Some (BytesIO b))
  /\ (forall (req : Request) (resp resp' : Response) (id : option Z) (session : Session)
             (part : BodyPart) (more : list BodyPart),
         id_given id = false ->
         get_session req resp = (Some session, resp') ->
         media req = Ok (part :: more) ->
         str_in (content_type part) (accepted_files self) = true ->
         len_bytes (stream_bytes (stream part)) <= max_file_size self ->
         str_in (content_type part) IMAGE_EXTENSIONS = false ->
         persisted (on_post self req resp id [])
         = Some (Bytes (stream_bytes (stream part))))
  /\ (forall (req : Request) (resp resp' : Response) (id : option Z) (session : Session)
             (base64_info file_name : json) (error_message : option string)
             (decoded : bytes) (mimetype : string),
         id_given id = false ->
         get_session req resp = (Some session, resp') ->
         fst (get_base64_info self req [])
         = Ok (base64_info, file_name, error_message) ->
         truthy base64_info = true ->
         b64decode base64_info = Ok decoded ->
         filetype_guess decoded = Some mimetype ->
         str_in mimetype (accepted_files self) = true ->
         persisted (on_post_base64 self req resp id []) = Some (Bytes decoded)).
Proof.
  split; [ | split].
  - intros req resp resp' id session part more img b Hid Hsession Hmedia Hok Hle
      Himg Hopen Hsave.
    pose proof (process_stream_payload self part [] Hok Hle) as Hrun.
    cbv zeta in Hrun. rewrite Himg in Hrun.
    rewrite (compress_image_saved _ _ _ _ Hopen Hsave) in Hrun.
    destruct (on_post_first_part self req resp resp' id session part more _ _ _
                Hid Hsession Hmedia Hrun) as [rest Hrest].
    unfold persisted. rewrite Hrest.
    rewrite primary_content_app; [reflexivity | ].
    cbn [app]. rewrite !existsb_app, existsb_CreateFile_reads. reflexivity.
  - intros req resp resp' id session part more Hid Hsession Hmedia Hok Hle Himg.
    pose proof (process_stream_payload self part [] Hok Hle) as Hrun.
    cbv zeta in Hrun. rewrite Himg in Hrun.
    destruct (on_post_first_part self req resp resp' id session part more _ _ _
                Hid Hsession Hmedia Hrun) as [rest Hrest].
    unfold persisted. rewrite Hrest.
    rewrite primary_content_app; [reflexivity | ].
    cbn [app]. rewrite !existsb_app, existsb_CreateFile_reads. reflexivity.
  - intros req resp resp' id session base64_info file_name error_message decoded
      mimetype Hid Hsession Hinfo Htruthy Hdecode Hguess Hok.
    unfold persisted.
    rewrite (on_post_base64_sniffed self req resp resp' id session base64_info
               file_name error_message decoded [] Hid Hsession Hinfo Htruthy Hdecode).
    rewrite Hguess, Hok.
    destruct (process_file_extends file_name (Bytes decoded) mimetype
                (session_user session) false (check_if_make_thumbnail req)
                (check_if_public_file req) (check_if_private_file req)
                ([] ++ [BodyRead; B64Decode base64_info; FiletypeGuess decoded]))
      as [rest Hrest].
    destruct (process_file file_name (Bytes decoded) mimetype (session_user session)
                false (check_if_make_thumbnail req) (check_if_public_file req)
                (check_if_private_file req) _)
      as [[[[file thumbnail] code] | e] tr'];
      simpl in Hrest; subst tr'; reflexivity.
Qed.

End Order.

(* ------------------------------------------------------------------ *)
(** ** base64: decoding an encoding                                    *)
(* ------------------------------------------------------------------ *)

Ltac sextet n :=
  destruct n as [ | p]; [reflexivity | ];
  do 6 (destruct p as [p | p | ]; try reflexivity);
  exfalso; lia.

Lemma b64_value_char (n : N) : (n < 64)%N -> b64_value (b64_char n) = Some n.
Proof. intros H. sextet n. Qed.

Lemma b64_char_not_pad (n : N) : (n < 64)%N -> Ascii.eqb (b64_char n) "=" = false.
Proof. intros H. sextet n. Qed.

Lemma b64_char_ascii (n : N) : (n < 64)%N -> (N_of_ascii (b64_char n) <? 128)%N = true.
Proof. intros H. sextet n. Qed.

Lemma byte_of_to_N (a : byte) : byte_of_N (Byte.to_N a) = a.
Proof. unfold byte_of_N. now rewrite Byte.of_to_N. Qed.

Lemma to_N_lt (a : byte) : (Byte.to_N a < 256)%N.
Proof. pose proof (Byte.to_N_bounded a). lia. Qed.

Ltac euclid := zify; Z.to_euclidean_division_equations; lia.


(** One alphabet character, at each position of a group. *)
Lemma a2b_base64_char (n : N) (rest : string) (quad_pos leftchar pads : N)
    (out : bytes) :
  (n < 64)%N ->
  a2b_base64 (String (b64_char n) rest) quad_pos leftchar pads out
  = if (quad_pos =? 0)%N then a2b_base64 rest 1%N n 0%N out
    else if (quad_pos =? 1)%N then
      a2b_base64 rest 2%N (n mod 16)%N 0%N (byte_of_N (leftchar * 4 + n / 16) :: out)
    else if (quad_pos =? 2)%N then
      a2b_base64 rest 3%N (n mod 4)%N 0%N (byte_of_N (leftchar * 16 + n / 4) :: out)
    else a2b_base64 rest 0%N 0%N 0%N (byte_of_N (leftchar * 64 + n) :: out).
Proof.
  intros H. cbn [a2b_base64].
  now rewrite (b64_char_not_pad n H), (b64_value_char n H).
Qed.

Lemma byte_of_N_eq (n : N) (a : byte) : n = Byte.to_N a -> byte_of_N n = a.
Proof. intros ->. apply byte_of_to_N. Qed.

Ltac recompose a :=
  match goal with
  | |- context [byte_of_N ?n] => rewrite (byte_of_N_eq n a) by euclid
  end.

(** Decoding an encoding gives the bytes back. *)
Lemma a2b_base64_b64encode (data : bytes) :
  forall out, a2b_base64 (b64encode data) 0%N 0%N 0%N out = Ok (rev out ++ data).
Proof.
  induction data as [ | a | a b | a b c rest IH] using bytes_ind3; intros out.
  - simpl. now rewrite app_nil_r.
  - pose proof (to_N_lt a) as Ha.
    cbn [b64encode]. rewrite !a2b_base64_char by euclid.
    cbn -[N.div N.modulo N.mul N.add byte_of_N].
    recompose a. reflexivity.
  - pose proof (to_N_lt a) as Ha. pose proof (to_N_lt b) as Hb.
    cbn [b64encode]. rewrite !a2b_base64_char by euclid.
    cbn -[N.div N.modulo N.mul N.add byte_of_N].
    recompose a. recompose b. now rewrite <- app_assoc.
  - pose proof (to_N_lt a) as Ha. pose proof (to_N_lt b) as Hb.
    pose proof (to_N_lt c) as Hc.
    cbn [b64encode]. rewrite !a2b_base64_char by euclid.
    cbn [N.eqb Pos.eqb].
    recompose a. recompose b. recompose c.
    rewrite IH. cbn [rev]. now rewrite <- !app_assoc.
Qed.

Lemma is_ascii_b64encode (data : bytes) : is_ascii (b64encode data) = true.
Proof.
  unfold is_ascii.
  induction data as [ | a | a b | a b c rest IH] using bytes_ind3.
  - reflexivity.
  - pose proof (to_N_lt a) as Ha.
    cbn [b64encode list_ascii_of_string forallb].
    rewrite !b64_char_ascii by euclid. reflexivity.
  - pose proof (to_N_lt a) as Ha. pose proof (to_N_lt b) as Hb.
    cbn [b64encode list_ascii_of_string forallb].
    rewrite !b64_char_ascii by euclid. reflexivity.
  - pose proof (to_N_lt a) as Ha. pose proof (to_N_lt b) as Hb.
    pose proof (to_N_lt c) as Hc.
    cbn [b64encode list_ascii_of_string forallb].
    rewrite !b64_char_ascii by euclid. exact IH.
Qed.

(** Every encoding is a string that decodes, to the bytes encoded. *)
Lemma base64_b64decode_b64encode (data : bytes) :
  base64_b64decode (JStr (b64encode data)) = Ok data.
Proof.
  unfold base64_b64decode. rewrite is_ascii_b64encode.
  apply (a2b_base64_b64encode data []).
Qed.

(** On the encoding of bytes whose number is not a multiple of three,
    the estimate is not the number of bytes the string decodes to. *)
Lemma get_base64_file_length_padded (data : bytes) :
  len_bytes data mod 3 <> 0 ->
  exists q,
    base64_b64decode (JStr (b64encode data)) = Ok data
    /\ get_base64_file_length (JStr (b64encode data)) = Ok q
    /\ ~ (q == inject_Z (len_bytes data))%Q.
Proof.
  intros Hmod.
  destruct (get_base64_file_length_b64encode data) as (q & Hq & Heq).
  exists q. split; [apply base64_b64decode_b64encode | split; [exact Hq | ]].
  rewrite Heq. intros H. unfold Qeq in H. cbn [inject_Z Qnum Qden] in H.
  revert Hmod H. generalize (len_bytes data). intros n Hmod H.
  Z.to_euclidean_division_equations. lia.
Qed.

(* ------------------------------------------------------------------ *)
(** ** The statements at concrete requests                             *)
(* ------------------------------------------------------------------ *)

(** C4: the envelope [{"file_name": "a.png", "base64": "QQ="}] passes
    the size check, then decoding [QQ=] fails on its padding; nothing
    around the decode call handles the error, so [on_post_base64] ends in
    the exception instead of answering with a client error. *)
Theorem on_post_base64_bad_padding :
  base64_b64decode (JStr "QQ=") = Raise (LibraryError "Incorrect padding")
  /\ on_post_base64 (collab := Demo.collab) (impl := Demo.saving) Demo.controller
       (Demo.base64_request "a.png" "QQ=" false) Demo.empty_response None []
     = (Raise (LibraryError "Incorrect padding"), [BodyRead; B64Decode (JStr "QQ=")]).
Proof. split; vm_compute; reflexivity. Qed.

(** A GIF in a base64 envelope is refused for its type, and by then its
    string has been decoded: the trace of the refusal holds the decode. *)
Lemma base64_refusal_after_decoding :
  ~ refused_before_decoding (collab := Demo.collab) (impl := Demo.saving)
      Demo.controller (Demo.base64_request "a.gif" "R0lGODlh" false)
      Demo.empty_response.
Proof.
  intros H.
  specialize (H "image/gif"
                [BodyRead; B64Decode (JStr "R0lGODlh"); FiletypeGuess Demo.gif_bytes]).
  discriminate H. vm_compute. reflexivity.
Qed.

Lemma content_type_refusal_order_witness :
  let gif := {| content_type := "image/gif"; filename := JStr "a.gif";
                stream := [Demo.gif_bytes] |} in
  process_stream (collab := Demo.collab) Demo.controller gif []
  = (Raise (ContentTypeNotAllowed "image/gif" (accepted_files Demo.controller)), [])
  /\ on_post (collab := Demo.collab) (impl := Demo.saving) Demo.controller
       (Demo.multipart_request [gif] false) Demo.empty_response None []
     = (Ok (type_refusal (collab := Demo.collab) Demo.controller
              Demo.empty_response "image/gif"), [])
  /\ on_post_base64 (collab := Demo.collab) (impl := Demo.saving) Demo.controller
       (Demo.base64_request "a.gif" "R0lGODlh" false) Demo.empty_response None []
     = (Ok (type_refusal (collab := Demo.collab) Demo.controller
              Demo.empty_response "image/gif"),
        [BodyRead; B64Decode (JStr "R0lGODlh"); FiletypeGuess Demo.gif_bytes]).
Proof.
  intros gif.
  destruct (content_type_refusal_order (collab := Demo.collab) (impl := Demo.saving)
              Demo.controller) as (Hstream & Hpost & Hbase64).
  split; [ | split].
  - apply (Hstream gif []). reflexivity.
  - apply (Hpost (Demo.multipart_request [gif] false) Demo.empty_response
             Demo.empty_response None "alice" gif [] []); reflexivity.
  - apply (Hbase64 (Demo.base64_request "a.gif" "R0lGODlh" false) Demo.empty_response
             Demo.empty_response None "alice" (JStr "R0lGODlh") (JStr "a.gif") None
             Demo.gif_bytes "image/gif" []); reflexivity.
Defined.

Lemma process_stream_over_limit_witness :
  let part := {| content_type := "image/png"; filename := JStr "cat.png";
                 stream := [Demo.png_bytes; bytes_of "and some"; bytes_of "never read"] |} in
  0 <= max_file_size Demo.controller
  /\ len_bytes (stream_bytes (stream part)) > max_file_size Demo.controller
  /\ str_in (content_type part) (accepted_files Demo.controller) = true
  /\ exists pre chunk post,
       stream part = pre ++ chunk :: post
       /\ len_bytes (join_bytes pre) <= max_file_size Demo.controller
       /\ max_file_size Demo.controller < len_bytes (join_bytes pre) + len_bytes chunk
       /\ process_stream (collab := Demo.collab)
            Demo.controller part []
          = (Raise FileSizeGreaterThanAllowed, [] ++ reads (pre ++ [chunk])).
Proof.
  intros part.
  assert (Hmax : 0 <= max_file_size Demo.controller) by (vm_compute; discriminate).
  assert (Hover : len_bytes (stream_bytes (stream part)) > max_file_size Demo.controller)
    by (vm_compute; reflexivity).
  split; [exact Hmax | split; [exact Hover | split; [reflexivity | ]]].
  exact (proj1 (process_stream_over_limit (collab := Demo.collab)
                  Demo.controller part [] Hmax Hover) eq_refl).
Defined.

Lemma process_stream_within_limit_witness :
  let part := {| content_type := "application/pdf"; filename := JStr "notes.pdf";
                 stream := [bytes_of "%PDF"; bytes_of "-1."; bytes_of "7 text"] |} in
  str_in (content_type part) (accepted_files Demo.controller) = true
  /\ len_bytes (stream_bytes (stream part)) <= max_file_size Demo.controller
  /\ process_stream (collab := Demo.collab) Demo.controller part []
     = (Ok (Bytes (bytes_of "%PDF-1.7 text")),
        reads [bytes_of "%PDF"; bytes_of "-1."; bytes_of "7 text"; []]).
Proof.
  intros part.
  assert (Hok : str_in (content_type part) (accepted_files Demo.controller) = true)
    by reflexivity.
  assert (Hle : len_bytes (stream_bytes (stream part)) <= max_file_size Demo.controller)
    by (vm_compute; discriminate).
  split; [exact Hok | split; [exact Hle | ]].
  exact (proj1 (proj2 (proj2 (process_stream_within_limit (collab := Demo.collab)
                                Demo.controller part [] Hok Hle)))
           eq_refl).
Defined.

Lemma process_file_failures_witness :
  (create_file (FileAbstract := Demo.failing) []
     (primary_args (models := Demo.models) (JStr "cat.png") (Bytes Demo.png_bytes) "image/png" "alice"
        false false false) = Ok None
   /\ process_file (collab := Demo.collab) (impl := Demo.failing) (JStr "cat.png")
        (Bytes Demo.png_bytes) "image/png" "alice" false true false false []
      = (Ok (JDict [("Filename", JStr "cat.png"); ("Error", JStr "problem saving to db")],
             JNull, 500),
         [CreateFile (primary_args (models := Demo.models) (JStr "cat.png") (Bytes Demo.png_bytes) "image/png"
                        "alice" false false false)]))
  /\ process_file (collab := Demo.collab) (impl := Demo.no_thumbnails) (JStr "cat.png")
       (Bytes Demo.png_bytes) "image/png" "alice" false true false false []
     = (Ok (Demo.saved (primary_args (models := Demo.models) (JStr "cat.png") (Bytes Demo.png_bytes)
                          "image/png" "alice" false false false),
            JDict [("Filename_thumbnail", JStr "cat.png");
                   ("error", JStr "problem saving to db")],
            201),
        [CreateFile (primary_args (models := Demo.models) (JStr "cat.png") (Bytes Demo.png_bytes) "image/png"
                       "alice" false false false);
         ImageOpen Demo.png_bytes;
         CreateFile (thumbnail_args (models := Demo.models) "cat.png" (BytesIO Demo.png_bytes) "image/png"
                       "alice" false false)]).
Proof.
  split; [split; [reflexivity | ] | ].
  - exact (proj1 (process_file_failures (collab := Demo.collab) (impl := Demo.failing)
                    (JStr "cat.png") (Bytes Demo.png_bytes) "image/png" "alice"
                    false true false false [])
             eq_refl).
  - exact (proj2 (process_file_failures (collab := Demo.collab)
                    (impl := Demo.no_thumbnails)
                    (JStr "cat.png") (Bytes Demo.png_bytes) "image/png" "alice"
                    false true false false [])
             (Demo.saved (primary_args (models := Demo.models) (JStr "cat.png") (Bytes Demo.png_bytes)
                            "image/png" "alice" false false false))
             "cat.png" Demo.png_bytes Demo.png_bytes Demo.png_bytes
             eq_refl eq_refl eq_refl eq_refl eq_refl eq_refl eq_refl eq_refl).
Defined.

Lemma persisted_primary_content_witness :
  let png := {| content_type := "image/png"; filename := JStr "cat.png";
                stream := [Demo.png_magic; bytes_of "pixels"] |} in
  let pdf := {| content_type := "application/pdf"; filename := JStr "notes.pdf";
                stream := [bytes_of "%PDF"; bytes_of "-1.7"] |} in
  persisted (on_post (collab := Demo.collab) (impl := Demo.saving) Demo.controller
               (Demo.multipart_request [png] false) Demo.empty_response None [])
  = Some (BytesIO (firstn 8 Demo.png_bytes))
  /\ persisted (on_post (collab := Demo.collab) (impl := Demo.saving) Demo.controller
                  (Demo.multipart_request [pdf] false) Demo.empty_response None [])
     = Some (Bytes (bytes_of "%PDF-1.7"))
  /\ persisted (on_post_base64 (collab := Demo.collab) (impl := Demo.saving)
                  Demo.controller
                  (Demo.base64_request "cat.png" "iVBOR3BpeGVscw==" false)
                  Demo.empty_response None [])
     = Some (Bytes Demo.png_bytes).
Proof.
  intros png pdf.
  destruct (persisted_primary_content (collab := Demo.collab) (impl := Demo.saving)
              Demo.controller) as (Himage & Hother & Hbase64).
  split; [ | split].
  - apply (Himage (Demo.multipart_request [png] false) Demo.empty_response
             Demo.empty_response None "alice" png [] Demo.png_bytes
             (firstn 8 Demo.png_bytes));
      try reflexivity.
    vm_compute. discriminate.
  - apply (Hother (Demo.multipart_request [pdf] false) Demo.empty_response
             Demo.empty_response None "alice" pdf []);
      try reflexivity.
    vm_compute. discriminate.
  - apply (Hbase64 (Demo.base64_request "cat.png" "iVBOR3BpeGVscw==" false)
             Demo.empty_response Demo.empty_response None "alice"
             (JStr "iVBOR3BpeGVscw==") (JStr "cat.png") None Demo.png_bytes
             "image/png");
      reflexivity.
Defined.

Lemma on_post_without_parts_witness :
  id_given None = false
  /\ media (Demo.multipart_request [] false) = Ok []
  /\ on_post (collab := Demo.collab) (impl := Demo.saving) Demo.controller
       (Demo.multipart_request [] false) Demo.empty_response None []
     = (Raise (UnboundLocalError "code"), []).
Proof.
  split; [reflexivity | split; [reflexivity | ]].
  apply (on_post_without_parts (collab := Demo.collab) (impl := Demo.saving)
           Demo.controller (Demo.multipart_request [] false) Demo.empty_response
           Demo.empty_response None "alice" []);
    reflexivity.
Defined.

Lemma on_post_base64_unrecognised_witness :
  base64_b64decode (JStr "QQ==") = Ok (bytes_of "A")
  /\ Demo.guess (bytes_of "A") = None
  /\ on_post_base64 (collab := Demo.collab) (impl := Demo.saving) Demo.controller
       (Demo.base64_request "a.txt" "QQ==" false) Demo.empty_response None []
     = (Raise (AttributeError "'NoneType' object has no attribute 'mime'"),
        [] ++ [BodyRead; B64Decode (JStr "QQ=="); FiletypeGuess (bytes_of "A")]).
Proof.
  split; [reflexivity | split; [reflexivity | ]].
  apply (on_post_base64_unrecognised (collab := Demo.collab) (impl := Demo.saving)
           Demo.controller (Demo.base64_request "a.txt" "QQ==" false)
           Demo.empty_response Demo.empty_response None "alice"
           (JStr "QQ==") (JStr "a.txt") None (bytes_of "A") []);
    reflexivity.
Defined.

(* ------------------------------------------------------------------ *)
(** ** More on the reader and on [on_post]                             *)
(* ------------------------------------------------------------------ *)

Lemma bytes_read_app {models : Models} (before after : list Event) :
  bytes_read (before ++ after) = bytes_read before + bytes_read after.
Proof.
  induction before as [ | ev before IH]; [reflexivity | ].
  destruct ev; cbn [app bytes_read]; rewrite IH; lia.
Qed.

Lemma primary_content_none {models : Models} (tr : list Event) :
  existsb is_CreateFile tr = false -> primary_content tr = None.
Proof.
  intros H. rewrite <- (app_nil_r tr). now rewrite primary_content_app.
Qed.

Section ReaderBounds.

Context {models : Models} {collab : Collaborators} {impl : FileAbstract}.

Variable self : FileController.

(** What the loop adds to the trace: reads only, and when every read
    returns at most [CHUNK_SIZE] bytes the count never runs more than one
    chunk past the limit. *)
Lemma read_chunks_events (chunks : list bytes) :
  forall (read_so_far : Z) (data : list bytes) (tr : list Event),
  exists rest,
    snd (read_chunks self chunks read_so_far data tr) = tr ++ rest
    /\ existsb is_CreateFile rest = false
    /\ (read_so_far <= max_file_size self ->
        Forall (fun chunk => len_bytes chunk <= CHUNK_SIZE) chunks ->
        read_so_far + bytes_read rest <= max_file_size self + CHUNK_SIZE).
Proof.
  induction chunks as [ | chunk rest IH]; intros read_so_far data tr.
  - exists [StreamRead CHUNK_SIZE []].
    split; [reflexivity | split; [reflexivity | ]].
    intros Hle _. cbn [bytes_read]. change (len_bytes []) with 0.
    unfold CHUNK_SIZE. lia.
  - destruct chunk as [ | a chunk].
    + exists [StreamRead CHUNK_SIZE []].
      split; [reflexivity | split; [reflexivity | ]].
      intros Hle _. cbn [bytes_read]. change (len_bytes []) with 0.
      unfold CHUNK_SIZE. lia.
    + cbn [read_chunks]. run_step.
      destruct (Z.gtb_spec (read_so_far + len_bytes (a :: chunk)) (max_file_size self))
        as [Hover | Hfit].
      * exists [StreamRead CHUNK_SIZE (a :: chunk)].
        split; [reflexivity | split; [reflexivity | ]].
        intros Hle Hsize. inversion Hsize; subst. cbn [bytes_read]. lia.
      * destruct (IH (read_so_far + len_bytes (a :: chunk)) (data ++ [a :: chunk])
                    (tr ++ [StreamRead CHUNK_SIZE (a :: chunk)]))
          as (rest' & Htrace & Hnone & Hbound).
        exists (StreamRead CHUNK_SIZE (a :: chunk) :: rest').
        split; [ | split].
        -- etransitivity; [exact Htrace | ]. now rewrite <- app_assoc.
        -- exact Hnone.
        -- intros Hle Hsize. inversion Hsize; subst.
           cbn [bytes_read]. specialize (Hbound Hfit H2). lia.
Qed.

Lemma process_stream_events (part : BodyPart) (tr : list Event) :
  exists rest,
    snd (process_stream self part tr) = tr ++ rest
    /\ existsb is_CreateFile rest = false
    /\ (0 <= max_file_size self ->
        Forall (fun chunk => len_bytes chunk <= CHUNK_SIZE) (stream part) ->
        bytes_read rest <= max_file_size self + CHUNK_SIZE).
Proof.
  unfold process_stream, check_if_valid_content_type. run_step.
  destruct (str_in (content_type part) (accepted_files self)); cbn [negb].
  - destruct (read_chunks_events (stream part) 0 [] tr)
      as (rest & Htrace & Hnone & Hbound).
    destruct (read_chunks self (stream part) 0 [] tr) as [[data | e] tr'];
      simpl in Htrace; subst tr'.
    + destruct (str_in (content_type part) IMAGE_EXTENSIONS).
      * exists (rest ++ [ImageOpen (join_bytes data)]).
        split; [ | split].
        -- unfold compress_image. run_step. rewrite app_assoc.
           destruct (Image_open (join_bytes data)) as [img | e]; [ | reflexivity].
           destruct (Image_save img (Image_format img) _); reflexivity.
        -- rewrite existsb_app, Hnone. reflexivity.
        -- intros Hmax Hsize. rewrite bytes_read_app. cbn [bytes_read].
           specialize (Hbound Hmax Hsize). lia.
      * exists rest. split; [reflexivity | split; [exact Hnone | ]].
        intros Hmax Hsize. specialize (Hbound Hmax Hsize). lia.
    + exists rest. split; [reflexivity | split; [exact Hnone | ]].
      intros Hmax Hsize. specialize (Hbound Hmax Hsize). lia.
  - exists []. split; [now rewrite app_nil_r | split; [reflexivity | ]].
    intros Hmax _. cbn [bytes_read]. unfold CHUNK_SIZE. lia.
Qed.

(** X1: when no read returns more than [CHUNK_SIZE] bytes,
    [process_stream] never takes more than [max_file_size + CHUNK_SIZE]
    bytes from the stream, whatever the size of the upload. *)
Theorem process_stream_overrun_bound (part : BodyPart) (tr : list Event) :
  0 <= max_file_size self ->
  Forall (fun chunk => len_bytes chunk <= CHUNK_SIZE) (stream part) ->
  exists rest,
    snd (process_stream self part tr) = tr ++ rest
    /\ bytes_read rest <= max_file_size self + CHUNK_SIZE.
Proof.
  intros Hmax Hsize.
  destruct (process_stream_events part tr) as (rest & Htrace & _ & Hbound).
  exists rest. split; [exact Htrace | exact (Hbound Hmax Hsize)].
Qed.

(** X2: a stream that ends at its first read is an empty upload, and it
    passes the size check for every limit, since the count is only
    compared after a chunk that is not empty. *)
Theorem process_stream_empty_upload (part : BodyPart) (tr : list Event) :
  delivered (stream part) = [] ->
  str_in (content_type part) (accepted_files self) = true ->
  process_stream self part tr
  = if str_in (content_type part) IMAGE_EXTENSIONS
    then compress_image [] (tr ++ [StreamRead CHUNK_SIZE []])
    else (Ok (Bytes []), tr ++ [StreamRead CHUNK_SIZE []]).
Proof.
  intros Hempty Hok. unfold process_stream. run_step.
  rewrite (check_if_valid_content_type_accepted self _ _ Hok).
  destruct (stream part) as [ | [ | a chunk] rest]; try discriminate Hempty;
    cbn [read_chunks]; run_step;
    destruct (str_in (content_type part) IMAGE_EXTENSIONS); reflexivity.
Qed.

(** An exception of [process_stream] becomes the 400 answer. *)
Lemma on_post_stream_error (req : Request) (resp resp' : Response) (id : option Z)
    (session : Session) (part : BodyPart) (more : list BodyPart)
    (tr tr' : list Event) (e : exn) :
  id_given id = false ->
  get_session req resp = (Some session, resp') ->
  media req = Ok (part :: more) ->
  process_stream self part tr = (Raise e, tr') ->
  on_post self req resp id tr
  = (Ok (response resp' HTTPStatus_BAD_REQUEST None (Some (str_exn e))), tr').
Proof.
  intros Hid Hsession Hmedia Hstream.
  unfold on_post. rewrite Hid, Hsession, Hmedia.
  unfold on_post_loop. run_step. now rewrite Hstream.
Qed.

(** X3: only the first part of a form is processed: a request with
    further parts is answered, with the same calls, as the request that
    carries the first part alone. *)
Theorem on_post_first_part_only (req req' : Request) (resp : Response)
    (id : option Z) (part : BodyPart) (more : list BodyPart) (tr : list Event) :
  media req = Ok (part :: more) ->
  media req' = Ok [part] ->
  params req' = params req ->
  get_session req' resp = get_session req resp ->
  on_post self req' resp id tr = on_post self req resp id tr.
Proof.
  intros Hmedia Hmedia' Hparams Hsession.
  unfold on_post, check_if_make_thumbnail, check_if_public_file,
    check_if_private_file, param_is_True.
  now rewrite Hsession, Hmedia, Hmedia', Hparams.
Qed.

(** X4: whatever [process_stream] raises (a refused type, the size
    limit, an image the library cannot open) is answered by [on_post]
    with status 400 and the text of the exception, and nothing is
    persisted. *)
Theorem on_post_answers_read_errors (req : Request) (resp resp' : Response)
    (id : option Z) (session : Session) (part : BodyPart) (more : list BodyPart)
    (e : exn) :
  id_given id = false ->
  get_session req resp = (Some session, resp') ->
  media req = Ok (part :: more) ->
  fst (process_stream self part []) = Raise e ->
  fst (on_post self req resp id [])
  = Ok (response resp' HTTPStatus_BAD_REQUEST None (Some (str_exn e)))
  /\ persisted (on_post self req resp id []) = None.
Proof.
  intros Hid Hsession Hmedia Hraise.
  destruct (process_stream_events part []) as (rest & Htrace & Hnone & _).
  destruct (process_stream self part []) as [r tr'] eqn:Hrun.
  simpl in Hraise, Htrace. subst r tr'.
  unfold persisted.
  rewrite (on_post_stream_error req resp resp' id session part more _ _ e
             Hid Hsession Hmedia Hrun).
  split; [reflexivity | ]. now apply primary_content_none.
Qed.

(** X5: an accepted upload over the limit is answered with status 400
    and the fixed text of [FileSizeGreaterThanAllowed], which names 4MB
    whatever limit is configured, and nothing is persisted. *)
Theorem on_post_over_limit (req : Request) (resp resp' : Response)
    (id : option Z) (session : Session) (part : BodyPart) (more : list BodyPart) :
  id_given id = false ->
  get_session req resp = (Some session, resp') ->
  media req = Ok (part :: more) ->
  str_in (content_type part) (accepted_files self) = true ->
  0 <= max_file_size self ->
  len_bytes (stream_bytes (stream part)) > max_file_size self ->
  fst (on_post self req resp id [])
  = Ok (response resp' HTTPStatus_BAD_REQUEST None
          (Some "The file size exceeds the allowed limit of 4MB."))
  /\ persisted (on_post self req resp id []) = None.
Proof.
  intros Hid Hsession Hmedia Hok Hmax Hover.
  destruct (read_chunks_over_limit self (stream part) 0 [] [] Hmax)
    as (pre & chunk & post & _ & _ & _ & Hrun); [lia | ].
  assert (Hstream : process_stream self part []
                    = (Raise FileSizeGreaterThanAllowed, [] ++ reads (pre ++ [chunk]))).
  { unfold process_stream. run_step.
    now rewrite (check_if_valid_content_type_accepted self _ _ Hok), Hrun. }
  unfold persisted.
  rewrite (on_post_stream_error req resp resp' id session part more _ _ _
             Hid Hsession Hmedia Hstream).
  split; [reflexivity | ].
  apply primary_content_none. apply existsb_CreateFile_reads.
Qed.

End ReaderBounds.

(* ------------------------------------------------------------------ *)
(** ** More on [process_file] and the thumbnail                        *)
(* ------------------------------------------------------------------ *)

Section Thumbnails.

Context {models : Models} {collab : Collaborators} {impl : FileAbstract}.

(** Making the thumbnail image opens the payload once; what it returns
    depends on the payload alone. *)
Lemma create_thumbnail_image_trace (image_data : content) (tr : list Event) :
  snd (create_thumbnail_image image_data tr)
  = tr ++ [ImageOpen (bytes_of_content image_data)].
Proof.
  unfold create_thumbnail_image. run_step.
  destruct (Image_open (bytes_of_content image_data)) as [img | e]; [ | reflexivity].
  destruct (Image_thumbnail img (640, 640)) as [img' | e]; [ | reflexivity].
  destruct (Image_save img' (Image_format img') []); reflexivity.
Qed.

Lemma create_thumbnail_image_result (image_data : content) (tr tr' : list Event) :
  fst (create_thumbnail_image image_data tr)
  = fst (create_thumbnail_image image_data tr').
Proof.
  unfold create_thumbnail_image. run_step.
  destruct (Image_open (bytes_of_content image_data)) as [img | e]; [ | reflexivity].
  destruct (Image_thumbnail img (640, 640)) as [img' | e]; [ | reflexivity].
  destruct (Image_save img' (Image_format img') []); reflexivity.
Qed.

Lemma create_thumbnail_made (image_data thumbnail_content : content) (filename : json)
    (content_type : string) (encode_to_base64 : bool) (user : User)
    (public private : bool) (tr : list Event) :
  fst (create_thumbnail_image image_data tr) = Ok thumbnail_content ->
  let opened := tr ++ [ImageOpen (bytes_of_content image_data)] in
  create_thumbnail image_data filename content_type encode_to_base64 user
    public private tr
  = match filename with
    | JStr name =>
        let args := thumbnail_args name thumbnail_content content_type user
                      encode_to_base64 public in
        (create_file opened args, opened ++ [CreateFile args])
    | _ =>
        (Raise (AttributeError
                  (repr_str (type_name filename) ++ " object has no attribute 'split'")),
         opened)
    end.
Proof.
  intros Hmade opened.
  pose proof (create_thumbnail_image_trace image_data tr) as Htrace.
  unfold create_thumbnail. unfold bind at 1.
  destruct (create_thumbnail_image image_data tr) as [r tr'].
  simpl in Hmade, Htrace. subst r tr'.
  destruct filename; reflexivity.
Qed.

Lemma create_thumbnail_failed (image_data : content) (filename : json)
    (content_type : string) (encode_to_base64 : bool) (user : User)
    (public private : bool) (tr : list Event) (e : exn) :
  fst (create_thumbnail_image image_data tr) = Raise e ->
  create_thumbnail image_data filename content_type encode_to_base64 user
    public private tr
  = (Raise e, tr ++ [ImageOpen (bytes_of_content image_data)]).
Proof.
  intros Hfailed.
  pose proof (create_thumbnail_image_trace image_data tr) as Htrace.
  unfold create_thumbnail. unfold bind at 1.
  destruct (create_thumbnail_image image_data tr) as [r tr'].
  simpl in Hfailed, Htrace. now subst r tr'.
Qed.

(** [process_file] once the primary file is saved and a thumbnail is
    due. *)
Lemma process_file_saved (filename : json) (data : content) (content_type : string)
    (user : User) (encode_to_base64 make_thumbnail public private : bool)
    (tr : list Event) (file : File) :
  let primary := primary_args filename data content_type user
                   encode_to_base64 public private in
  create_file tr primary = Ok (Some file) ->
  process_file filename data content_type user encode_to_base64
    make_thumbnail public private tr
  = if make_thumbnail && str_in content_type IMAGE_EXTENSIONS then
      match create_thumbnail data filename content_type encode_to_base64 user
              public private (tr ++ [CreateFile primary]) with
      | (Ok thumbnail, tr') =>
          (Ok (serialize_model file,
               match thumbnail with
               | Some thumbnail => serialize_model thumbnail
               | None => JDict [("Filename_thumbnail", filename);
                                ("error", JStr "problem saving to db")]
               end,
               201), tr')
      | (Raise e, tr') => (Raise e, tr')
      end
    else (Ok (serialize_model file, JNull, 201), tr ++ [CreateFile primary]).
Proof.
  intros primary Hfile. unfold primary, primary_args in *.
  unfold process_file, call_create_file. run_step. rewrite Hfile.
  destruct (make_thumbnail && str_in content_type IMAGE_EXTENSIONS); [ | reflexivity].
  destruct (create_thumbnail data filename content_type encode_to_base64 user
              public private _) as [[thumbnail | e] tr']; reflexivity.
Qed.

(** X6: the status [process_file] returns tells whether the primary
    file was saved: 500 comes with the error entry and no thumbnail and
    only when the primary [create_file] call saved nothing, 201 only
    with the serialised record of a saved primary file. *)
Theorem process_file_status (filename : json) (data : content) (content_type : string)
    (user : User) (encode_to_base64 make_thumbnail public private : bool)
    (tr : list Event) (file_data thumbnail_data : json) (code : Z) :
  let primary := primary_args filename data content_type user
                   encode_to_base64 public private in
  fst (process_file filename data content_type user encode_to_base64
         make_thumbnail public private tr)
  = Ok (file_data, thumbnail_data, code) ->
  (create_file tr primary = Ok None
   /\ code = 500
   /\ thumbnail_data = JNull
   /\ file_data = JDict [("Filename", filename); ("Error", JStr "problem saving to db")])
  \/ (exists file,
        create_file tr primary = Ok (Some file)
        /\ code = 201
        /\ file_data = serialize_model file).
Proof.
  intros primary Hrun.
  destruct (create_file tr primary) as [[file | ] | e] eqn:Hfile.
  - right. exists file. split; [reflexivity | ].
    rewrite (process_file_saved filename data content_type user encode_to_base64
               make_thumbnail public private tr file Hfile) in Hrun.
    destruct (make_thumbnail && str_in content_type IMAGE_EXTENSIONS).
    + destruct (create_thumbnail data filename content_type encode_to_base64 user
                  public private _) as [[thumbnail | e] tr'];
        simpl in Hrun; [ | discriminate Hrun].
      injection Hrun as <- _ <-. split; reflexivity.
    + simpl in Hrun. injection Hrun as <- _ <-. split; reflexivity.
  - left. unfold primary, primary_args in Hfile.
    unfold process_file, call_create_file in Hrun. revert Hrun. run_step.
    rewrite Hfile. simpl. intros Hrun. injection Hrun as <- <- <-.
    repeat split.
  - exfalso. unfold primary, primary_args in Hfile.
    unfold process_file, call_create_file in Hrun. revert Hrun. run_step.
    rewrite Hfile. discriminate.
Qed.

(** X7: [process_file] calls [create_file] first for the primary file,
    and again only for a thumbnail that was asked for, of an image type,
    after the primary file was saved.  That call is always made with
    [is_thumbnail=1], the derived name, the type and the public flag of
    the upload, and [private=False], whatever the upload's private flag. *)
Theorem process_file_calls (filename : json) (data : content) (content_type : string)
    (user : User) (encode_to_base64 make_thumbnail public private : bool)
    (tr : list Event) :
  let primary := primary_args filename data content_type user
                   encode_to_base64 public private in
  exists rest,
    snd (process_file filename data content_type user encode_to_base64
           make_thumbnail public private tr)
    = tr ++ CreateFile primary :: rest
    /\ (make_thumbnail && str_in content_type IMAGE_EXTENSIONS = false -> rest = [])
    /\ ((forall file, create_file tr primary <> Ok (Some file)) -> rest = [])
    /\ (forall args, In (CreateFile args) rest ->
          exists name thumbnail_content,
            filename = JStr name
            /\ args = thumbnail_args name thumbnail_content content_type user
                        encode_to_base64 public).
Proof.
  intros primary.
  assert (Hnone : forall rest : list Event,
             rest = [] ->
             forall args, In (CreateFile args) rest ->
               exists name thumbnail_content,
                 filename = JStr name
                 /\ args = thumbnail_args name thumbnail_content content_type user
                             encode_to_base64 public).
  { intros rest -> args []. }
  destruct (create_file tr primary) as [[file | ] | e] eqn:Hfile.
  - rewrite (process_file_saved filename data content_type user encode_to_base64
               make_thumbnail public private tr file Hfile).
    fold primary.
    destruct (make_thumbnail && str_in content_type IMAGE_EXTENSIONS).
    + destruct (fst (create_thumbnail_image data (tr ++ [CreateFile primary])))
        as [thumbnail_content | e] eqn:Himage.
      * rewrite (create_thumbnail_made data thumbnail_content filename content_type
                   encode_to_base64 user public private _ Himage).
        destruct filename as [ | b | z | name | l | d];
          try (exists [ImageOpen (bytes_of_content data)];
               split; [now rewrite <- app_assoc | ];
               split; [discriminate | ];
               split; [intros Hno; now destruct (Hno file) | ];
               intros args [Hin | []]; discriminate Hin).
        cbv zeta.
        set (args := thumbnail_args name thumbnail_content content_type user
                       encode_to_base64 public).
        exists [ImageOpen (bytes_of_content data); CreateFile args].
        split.
        { destruct (create_file _ args) as [[thumbnail | ] | e];
            cbn [snd]; now rewrite <- !app_assoc. }
        split; [discriminate | ].
        split; [intros Hno; now destruct (Hno file) | ].
        intros args' [Hin | [Hin | []]]; [discriminate Hin | ].
        injection Hin as <-. exists name, thumbnail_content. split; reflexivity.
      * rewrite (create_thumbnail_failed data filename content_type
                   encode_to_base64 user public private _ e Himage).
        exists [ImageOpen (bytes_of_content data)].
        split; [cbn [snd]; now rewrite <- app_assoc | ].
        split; [discriminate | ].
        split; [intros Hno; now destruct (Hno file) | ].
        intros args [Hin | []]. discriminate Hin.
    + exists []. split; [reflexivity | ].
      split; [reflexivity | split; [reflexivity | now apply Hnone]].
  - exists []. unfold primary, primary_args in *.
    unfold process_file, call_create_file. run_step. rewrite Hfile.
    split; [reflexivity | ].
    split; [reflexivity | split; [reflexivity | now apply Hnone]].
  - exists []. unfold primary, primary_args in *.
    unfold process_file, call_create_file. run_step. rewrite Hfile.
    split; [reflexivity | ].
    split; [reflexivity | split; [reflexivity | now apply Hnone]].
Qed.

End Thumbnails.

Section ThumbnailOutcomes.

Context {models : Models} {collab : Collaborators} {impl : FileAbstract}.

(** X8: a saved primary file and a saved thumbnail give both
    serialised records and status 201; the thumbnail is created from the
    same payload under the derived name, after the primary file, and it is
    never private. *)
Theorem process_file_thumbnail_saved (filename : json) (data : content)
    (content_type : string) (user : User) (encode_to_base64 public private : bool)
    (tr : list Event) (name : string) (file thumbnail_file : File)
    (thumbnail_content : content) :
  let primary := primary_args filename data content_type user
                   encode_to_base64 public private in
  let thumbnail := thumbnail_args name thumbnail_content content_type user
                     encode_to_base64 public in
  let opened := tr ++ [CreateFile primary; ImageOpen (bytes_of_content data)] in
  filename = JStr name ->
  str_in content_type IMAGE_EXTENSIONS = true ->
  create_file tr primary = Ok (Some file) ->
  fst (create_thumbnail_image data (tr ++ [CreateFile primary])) = Ok thumbnail_content ->
  create_file opened thumbnail = Ok (Some thumbnail_file) ->
  process_file filename data content_type user encode_to_base64 true public private tr
  = (Ok (serialize_model file, serialize_model thumbnail_file, 201),
     opened ++ [CreateFile thumbnail])
  /\ arg_private thumbnail = false.
Proof.
  intros primary thumbnail opened Hname Himg Hfile Himage Hthumb.
  split; [ | reflexivity].
  rewrite (process_file_saved filename data content_type user encode_to_base64
             true public private tr file Hfile).
  rewrite Himg. cbn [andb]. fold primary.
  rewrite (create_thumbnail_made data thumbnail_content filename content_type
             encode_to_base64 user public private _ Himage).
  subst filename. cbv zeta. fold thumbnail.
  replace ((tr ++ [CreateFile primary]) ++ [ImageOpen (bytes_of_content data)])
    with opened by (unfold opened; now rewrite <- app_assoc).
  now rewrite Hthumb.
Qed.

(** X9: when the thumbnail image cannot be made, the exception leaves
    [process_file], after the primary file was saved: the primary
    [create_file] call stays in the trace and no result is returned. *)
Theorem process_file_thumbnail_image_error (filename : json) (data : content)
    (content_type : string) (user : User) (encode_to_base64 public private : bool)
    (tr : list Event) (file : File) (e : exn) :
  let primary := primary_args filename data content_type user
                   encode_to_base64 public private in
  str_in content_type IMAGE_EXTENSIONS = true ->
  create_file tr primary = Ok (Some file) ->
  fst (create_thumbnail_image data (tr ++ [CreateFile primary])) = Raise e ->
  process_file filename data content_type user encode_to_base64 true public private tr
  = (Raise e, tr ++ [CreateFile primary; ImageOpen (bytes_of_content data)]).
Proof.
  intros primary Himg Hfile Himage.
  rewrite (process_file_saved filename data content_type user encode_to_base64
             true public private tr file Hfile).
  rewrite Himg. cbn [andb]. fold primary.
  rewrite (create_thumbnail_failed data filename content_type encode_to_base64
             user public private _ e Himage).
  now rewrite <- app_assoc.
Qed.

(** X10: an upload without a filename (or with one that is not a
    string) goes through until the thumbnail is named: the primary file is
    saved, the thumbnail image is made, and then [filename.split] raises
    [AttributeError], which leaves [process_file]. *)
Theorem process_file_thumbnail_without_name (filename : json) (data : content)
    (content_type : string) (user : User) (encode_to_base64 public private : bool)
    (tr : list Event) (file : File) (thumbnail_content : content) :
  let primary := primary_args filename data content_type user
                   encode_to_base64 public private in
  (forall name, filename <> JStr name) ->
  str_in content_type IMAGE_EXTENSIONS = true ->
  create_file tr primary = Ok (Some file) ->
  fst (create_thumbnail_image data (tr ++ [CreateFile primary])) = Ok thumbnail_content ->
  process_file filename data content_type user encode_to_base64 true public private tr
  = (Raise (AttributeError
              (repr_str (type_name filename) ++ " object has no attribute 'split'")%string),
     tr ++ [CreateFile primary; ImageOpen (bytes_of_content data)]).
Proof.
  intros primary Hname Himg Hfile Himage.
  rewrite (process_file_saved filename data content_type user encode_to_base64
             true public private tr file Hfile).
  rewrite Himg. cbn [andb]. fold primary.
  rewrite (create_thumbnail_made data thumbnail_content filename content_type
             encode_to_base64 user public private _ Himage).
  destruct filename as [ | b | z | name | l | d];
    try (cbv zeta; now rewrite <- app_assoc).
  now destruct (Hname name).
Qed.

Variable self : FileController.

(** X11: on the base64 path a thumbnail that cannot be made ends the
    request in the exception although the upload was accepted and its
    primary file persisted. *)
Theorem on_post_base64_thumbnail_error (req : Request) (resp resp' : Response)
    (id : option Z) (session : Session) (base64_info file_name : json)
    (error_message : option string) (decoded : bytes) (mimetype : string)
    (file : File) (e : exn) :
  let sniffed := [BodyRead; B64Decode base64_info; FiletypeGuess decoded] in
  let primary := primary_args file_name (Bytes decoded) mimetype
                   (session_user session) false
                   (check_if_public_file req) (check_if_private_file req) in
  id_given id = false ->
  get_session req resp = (Some session, resp') ->
  fst (get_base64_info self req []) = Ok (base64_info, file_name, error_message) ->
  truthy base64_info = true ->
  b64decode base64_info = Ok decoded ->
  filetype_guess decoded = Some mimetype ->
  str_in mimetype (accepted_files self) = true ->
  str_in mimetype IMAGE_EXTENSIONS = true ->
  check_if_make_thumbnail req = true ->
  create_file sniffed primary = Ok (Some file) ->
  fst (create_thumbnail_image (Bytes decoded) (sniffed ++ [CreateFile primary])) = Raise e ->
  on_post_base64 self req resp id []
  = (Raise e, sniffed ++ [CreateFile primary; ImageOpen decoded])
  /\ persisted (on_post_base64 self req resp id []) = Some (Bytes decoded).
Proof.
  intros sniffed primary Hid Hsession Hinfo Htruthy Hdecode Hguess Hok Himg
    Hmake Hfile Himage.
  assert (Hrun : on_post_base64 self req resp id []
                 = (Raise e, sniffed ++ [CreateFile primary; ImageOpen decoded])).
  { rewrite (on_post_base64_sniffed self req resp resp' id session base64_info
               file_name error_message decoded [] Hid Hsession Hinfo Htruthy Hdecode).
    rewrite Hguess, Hok, Hmake. cbn [app]. fold sniffed.
    rewrite (process_file_saved file_name (Bytes decoded) mimetype
               (session_user session) false true (check_if_public_file req)
               (check_if_private_file req) sniffed file Hfile).
    rewrite Himg. cbn [andb]. fold primary.
    rewrite (create_thumbnail_failed (Bytes decoded) file_name mimetype false
               (session_user session) (check_if_public_file req)
               (check_if_private_file req) _ e Himage).
    now rewrite <- app_assoc. }
  split; [exact Hrun | ]. unfold persisted. rewrite Hrun. reflexivity.
Qed.

End ThumbnailOutcomes.

(* ------------------------------------------------------------------ *)
(** ** More on the base64 envelope                                      *)
(* ------------------------------------------------------------------ *)

(** The comparison of the estimate with the limit, on integers. *)
Lemma estimate_within_limit (n limit : Z) :
  Qle_bool (inject_Z (n * 3) / inject_Z 4 - inject_Z 0) (inject_Z limit)
  = (n * 3 <=? 4 * limit).
Proof.
  destruct (Z.leb_spec (n * 3) (4 * limit)) as [Hle | Hgt].
  - apply Qle_bool_iff. unfold Qle, Qminus, Qdiv, Qmult, Qplus, Qinv, Qopp, inject_Z.
    cbn [Qnum Qden]. lia.
  - destruct (Qle_bool _ _) eqn:Hq; [ | reflexivity].
    apply Qle_bool_iff in Hq.
    unfold Qle, Qminus, Qdiv, Qmult, Qplus, Qinv, Qopp, inject_Z in Hq.
    cbn [Qnum Qden] in Hq. lia.
Qed.

Section Envelope.

Context {models : Models} {collab : Collaborators} {impl : FileAbstract}.

Variable self : FileController.

Lemma on_post_base64_refused (req : Request) (resp resp' : Response) (id : option Z)
    (session : Session) (message : option string) (tr tr' : list Event) :
  id_given id = false ->
  get_session req resp = (Some session, resp') ->
  get_base64_info self req tr = (Ok (JNull, JNull, message), tr') ->
  on_post_base64 self req resp id tr
  = (Ok (response resp' HTTPStatus_BAD_REQUEST None message), tr').
Proof.
  intros Hid Hsession Hinfo.
  unfold on_post_base64. rewrite Hid, Hsession.
  unfold bind at 1. now rewrite Hinfo.
Qed.

(** X12: a body that is not JSON is answered with status 400 and the
    text of the parser's exception; nothing is decoded or persisted. *)
Theorem on_post_base64_malformed_json (req : Request) (resp resp' : Response)
    (id : option Z) (session : Session) (e : exn) (tr : list Event) :
  id_given id = false ->
  get_session req resp = (Some session, resp') ->
  json_loads (body req) = Raise e ->
  on_post_base64 self req resp id tr
  = (Ok (response resp' HTTPStatus_BAD_REQUEST None (Some (str_exn e))),
     tr ++ [BodyRead]).
Proof.
  intros Hid Hsession Hloads.
  apply (on_post_base64_refused req resp resp' id session _ tr _ Hid Hsession).
  unfold get_base64_info. run_step. now rewrite Hloads.
Qed.

(** X13: an object in which [file_name] or [base64] is missing, null
    or empty is answered with status 400 and the text that both are
    needed, before any size check or decoding. *)
Theorem on_post_base64_missing_fields (req : Request) (resp resp' : Response)
    (id : option Z) (session : Session) (d : list (string * json))
    (tr : list Event) :
  id_given id = false ->
  get_session req resp = (Some session, resp') ->
  json_loads (body req) = Ok (JDict d) ->
  truthy (dict_get d "file_name") && truthy (dict_get d "base64") = false ->
  on_post_base64 self req resp id tr
  = (Ok (response resp' HTTPStatus_BAD_REQUEST None
           (Some "'file_name' and 'base64' needed")),
     tr ++ [BodyRead]).
Proof.
  intros Hid Hsession Hloads Hmissing.
  apply (on_post_base64_refused req resp resp' id session _ tr _ Hid Hsession).
  unfold get_base64_info. run_step. rewrite Hloads.
  rewrite <- negb_andb, Hmissing. reflexivity.
Qed.

(** X14: for an envelope with both fields, the size check looks at the
    length of the base64 string alone: the string is accepted exactly
    when three times its length is at most four times [max_file_size],
    and refused with a text naming the file otherwise. *)
Theorem get_base64_info_size_check (req : Request) (d : list (string * json))
    (s : string) (tr : list Event) :
  json_loads (body req) = Ok (JDict d) ->
  truthy (dict_get d "file_name") = true ->
  dict_get d "base64" = JStr s ->
  s <> EmptyString ->
  get_base64_info self req tr
  = (Ok (if len_str s * 3 <=? 4 * max_file_size self
         then (JStr s, dict_get d "file_name", None)
         else (JNull, JNull,
               Some ("The file " ++ str_json (dict_get d "file_name")
                     ++ " is larger than 4mb.")%string)),
     tr ++ [BodyRead]).
Proof.
  intros Hloads Hname Hbase64 Hne.
  unfold get_base64_info. run_step. rewrite Hloads, Hname, Hbase64.
  assert (Hs : truthy (JStr s) = true).
  { simpl. destruct (String.eqb_spec s EmptyString); [contradiction | reflexivity]. }
  rewrite Hs. cbn [negb orb].
  rewrite get_base64_file_length_str, estimate_within_limit.
  destruct (len_str s * 3 <=? 4 * max_file_size self); reflexivity.
Qed.

(** X15: a body that is JSON but not an object (a list, a string, a
    number, null) is not answered: [data.get] raises [AttributeError]
    outside the [try] of [get_base64_info], and the exception leaves
    [on_post_base64]. *)
Theorem on_post_base64_not_an_object (req : Request) (resp resp' : Response)
    (id : option Z) (session : Session) (v : json) (tr : list Event) :
  id_given id = false ->
  get_session req resp = (Some session, resp') ->
  json_loads (body req) = Ok v ->
  (forall d, v <> JDict d) ->
  on_post_base64 self req resp id tr
  = (Raise (AttributeError
              (repr_str (type_name v) ++ " object has no attribute 'get'")%string),
     tr ++ [BodyRead]).
Proof.
  intros Hid Hsession Hloads Hobject.
  unfold on_post_base64. rewrite Hid, Hsession.
  unfold bind at 1. unfold get_base64_info. run_step. rewrite Hloads.
  destruct v as [ | b | z | s | l | d]; try reflexivity.
  now destruct (Hobject d).
Qed.

(** X16: with the standard decoder, decoding what [encode_to_base64]
    produced gives the bytes back. *)
Theorem decode_base64_file_encode_to_base64 (data : bytes) (tr : list Event) :
  (forall s, b64decode (JStr s) = base64_b64decode (JStr s)) ->
  decode_base64_file (JStr (encode_to_base64 data)) tr
  = (Ok data, tr ++ [B64Decode (JStr (encode_to_base64 data))]).
Proof.
  intros Hstandard. unfold decode_base64_file. run_step.
  rewrite Hstandard. unfold encode_to_base64.
  now rewrite base64_b64decode_b64encode.
Qed.

(** X18: an accepted base64 upload for which no thumbnail is due is
    answered with status 201 and the serialised record itself, not a
    list, after one [create_file] call with the decoded bytes. *)
Theorem on_post_base64_saved (req : Request) (resp resp' : Response)
    (id : option Z) (session : Session) (base64_info file_name : json)
    (error_message : option string) (decoded : bytes) (mimetype : string)
    (file : File) :
  let sniffed := [BodyRead; B64Decode base64_info; FiletypeGuess decoded] in
  let primary := primary_args file_name (Bytes decoded) mimetype
                   (session_user session) false
                   (check_if_public_file req) (check_if_private_file req) in
  id_given id = false ->
  get_session req resp = (Some session, resp') ->
  fst (get_base64_info self req []) = Ok (base64_info, file_name, error_message) ->
  truthy base64_info = true ->
  b64decode base64_info = Ok decoded ->
  filetype_guess decoded = Some mimetype ->
  str_in mimetype (accepted_files self) = true ->
  check_if_make_thumbnail req && str_in mimetype IMAGE_EXTENSIONS = false ->
  create_file sniffed primary = Ok (Some file) ->
  on_post_base64 self req resp id []
  = (Ok (response resp' (StatusCode 201) (Some (serialize_model file)) None),
     sniffed ++ [CreateFile primary]).
Proof.
  intros sniffed primary Hid Hsession Hinfo Htruthy Hdecode Hguess Hok Hnone Hfile.
  rewrite (on_post_base64_sniffed self req resp resp' id session base64_info
             file_name error_message decoded [] Hid Hsession Hinfo Htruthy Hdecode).
  rewrite Hguess, Hok. cbn [app]. fold sniffed.
  rewrite (process_file_saved file_name (Bytes decoded) mimetype
             (session_user session) false (check_if_make_thumbnail req)
             (check_if_public_file req) (check_if_private_file req) sniffed file Hfile).
  rewrite Hnone. reflexivity.
Qed.

(** X19: an accepted upload of a type that is not an image type, within
    the limit, is answered by [on_post] with status 201 and a list of one
    item, the serialised record, after one [create_file] call with the
    bytes of the stream, whether or not a thumbnail was asked for. *)
Theorem on_post_saved (req : Request) (resp resp' : Response) (id : option Z)
    (session : Session) (part : BodyPart) (more : list BodyPart) (file : File) :
  let after := reads (delivered (stream part)) ++ [StreamRead CHUNK_SIZE []] in
  let primary := primary_args (filename part) (Bytes (stream_bytes (stream part)))
                   (content_type part) (session_user session) false
                   (check_if_public_file req) (check_if_private_file req) in
  id_given id = false ->
  get_session req resp = (Some session, resp') ->
  media req = Ok (part :: more) ->
  str_in (content_type part) (accepted_files self) = true ->
  len_bytes (stream_bytes (stream part)) <= max_file_size self ->
  str_in (content_type part) IMAGE_EXTENSIONS = false ->
  create_file after primary = Ok (Some file) ->
  on_post self req resp id []
  = (Ok (response resp' (StatusCode 201) (Some (JList [serialize_model file])) None),
     after ++ [CreateFile primary]).
Proof.
  intros after primary Hid Hsession Hmedia Hok Hle Himg Hfile.
  pose proof (process_stream_payload self part [] Hok Hle) as Hrun.
  cbv zeta in Hrun. rewrite Himg in Hrun. cbn [app] in Hrun. fold after in Hrun.
  unfold on_post. rewrite Hid, Hsession, Hmedia.
  unfold on_post_loop. run_step. rewrite Hrun.
  rewrite (process_file_saved (filename part) (Bytes (stream_bytes (stream part)))
             (content_type part) (session_user session) false
             (check_if_make_thumbnail req) (check_if_public_file req)
             (check_if_private_file req) after file Hfile).
  rewrite Himg, andb_false_r. reflexivity.
Qed.

End Envelope.


(* ------------------------------------------------------------------ *)
(** ** These properties at concrete requests                           *)
(* ------------------------------------------------------------------ *)

Lemma process_stream_overrun_bound_witness :
  let part := {| content_type := "image/png"; filename := JStr "cat.png";
                 stream := [Demo.png_bytes; bytes_of "and some"; bytes_of "never read"] |} in
  0 <= max_file_size Demo.controller
  /\ Forall (fun chunk => len_bytes chunk <= CHUNK_SIZE) (stream part)
  /\ exists rest,
       snd (process_stream (collab := Demo.collab) Demo.controller part []) = [] ++ rest
       /\ bytes_read rest <= max_file_size Demo.controller + CHUNK_SIZE.
Proof.
  intros part.
  assert (Hmax : 0 <= max_file_size Demo.controller) by (vm_compute; discriminate).
  assert (Hsize : Forall (fun chunk => len_bytes chunk <= CHUNK_SIZE) (stream part))
    by (repeat constructor; vm_compute; discriminate).
  split; [exact Hmax | split; [exact Hsize | ]].
  exact (process_stream_overrun_bound (collab := Demo.collab) Demo.controller
           part [] Hmax Hsize).
Defined.

Lemma process_stream_empty_upload_witness :
  let strict := {| accepted_files := ["application/pdf"]; max_file_size := -1 |} in
  let part := {| content_type := "application/pdf"; filename := JStr "empty.pdf";
                 stream := [] |} in
  len_bytes (stream_bytes (stream part)) > max_file_size strict
  /\ process_stream (collab := Demo.collab) strict part []
     = (Ok (Bytes []), [StreamRead CHUNK_SIZE []]).
Proof.
  intros strict part. split; [reflexivity | ].
  exact (process_stream_empty_upload (collab := Demo.collab) strict part []
           eq_refl eq_refl).
Defined.

Lemma on_post_first_part_only_witness :
  let first := {| content_type := "application/pdf"; filename := JStr "a.pdf";
                  stream := [bytes_of "%PDF-a"] |} in
  let second := {| content_type := "image/gif"; filename := JStr "b.gif";
                   stream := [Demo.gif_bytes] |} in
  on_post (collab := Demo.collab) (impl := Demo.saving) Demo.controller
    (Demo.multipart_request [first] false) Demo.empty_response None []
  = on_post (collab := Demo.collab) (impl := Demo.saving) Demo.controller
      (Demo.multipart_request [first; second] false) Demo.empty_response None [].
Proof.
  intros first second.
  exact (on_post_first_part_only (collab := Demo.collab) (impl := Demo.saving)
           Demo.controller (Demo.multipart_request [first; second] false)
           (Demo.multipart_request [first] false) Demo.empty_response None
           first [second] [] eq_refl eq_refl eq_refl eq_refl).
Defined.

Lemma on_post_answers_read_errors_witness :
  let part := {| content_type := "image/png"; filename := JStr "cat.png";
                 stream := [bytes_of "not an image"] |} in
  let req := Demo.multipart_request [part] false in
  fst (process_stream (collab := Demo.collab) Demo.controller part [])
  = Raise (LibraryError "cannot identify image file")
  /\ fst (on_post (collab := Demo.collab) (impl := Demo.saving) Demo.controller
            req Demo.empty_response None [])
     = Ok (response (Collaborators := Demo.collab) Demo.empty_response
             HTTPStatus_BAD_REQUEST None (Some "cannot identify image file"))
  /\ persisted (on_post (collab := Demo.collab) (impl := Demo.saving) Demo.controller
                  req Demo.empty_response None []) = None.
Proof.
  intros part req. split; [reflexivity | ].
  exact (on_post_answers_read_errors (collab := Demo.collab) (impl := Demo.saving)
           Demo.controller req Demo.empty_response Demo.empty_response None "alice"
           part [] (LibraryError "cannot identify image file")
           eq_refl eq_refl eq_refl eq_refl).
Defined.

Lemma on_post_over_limit_witness :
  let part := {| content_type := "image/png"; filename := JStr "cat.png";
                 stream := [Demo.png_bytes; bytes_of "and some"; bytes_of "never read"] |} in
  let req := Demo.multipart_request [part] false in
  len_bytes (stream_bytes (stream part)) > max_file_size Demo.controller
  /\ fst (on_post (collab := Demo.collab) (impl := Demo.saving) Demo.controller
            req Demo.empty_response None [])
     = Ok (response (Collaborators := Demo.collab) Demo.empty_response
             HTTPStatus_BAD_REQUEST None
             (Some "The file size exceeds the allowed limit of 4MB."))
  /\ persisted (on_post (collab := Demo.collab) (impl := Demo.saving) Demo.controller
                  req Demo.empty_response None []) = None.
Proof.
  intros part req.
  assert (Hmax : 0 <= max_file_size Demo.controller) by (vm_compute; discriminate).
  assert (Hover : len_bytes (stream_bytes (stream part)) > max_file_size Demo.controller)
    by (vm_compute; reflexivity).
  split; [exact Hover | ].
  exact (on_post_over_limit (collab := Demo.collab) (impl := Demo.saving)
           Demo.controller req Demo.empty_response Demo.empty_response None "alice"
           part [] eq_refl eq_refl eq_refl eq_refl Hmax Hover).
Defined.

Lemma process_file_status_witness :
  fst (process_file (collab := Demo.collab) (impl := Demo.failing) (JStr "cat.png")
         (Bytes Demo.png_bytes) "image/png" "alice" false true false false [])
  = Ok (JDict [("Filename", JStr "cat.png"); ("Error", JStr "problem saving to db")],
        JNull, 500)
  /\ create_file (FileAbstract := Demo.failing) []
       (primary_args (models := Demo.models) (JStr "cat.png") (Bytes Demo.png_bytes)
          "image/png" "alice" false false false) = Ok None.
Proof.
  split; [reflexivity | ].
  destruct (process_file_status (collab := Demo.collab) (impl := Demo.failing)
              (JStr "cat.png") (Bytes Demo.png_bytes) "image/png" "alice"
              false true false false []
              (JDict [("Filename", JStr "cat.png"); ("Error", JStr "problem saving to db")])
              JNull 500 eq_refl)
    as [(Hfail & _) | (file & Hsaved & Hcode & _)].
  - exact Hfail.
  - discriminate Hcode.
Defined.

Lemma process_file_thumbnail_saved_witness :
  let primary := primary_args (models := Demo.models) (JStr "cat.png")
                   (Bytes Demo.png_bytes) "image/png" "alice" false false true in
  let thumbnail := thumbnail_args (models := Demo.models) "cat.png"
                     (BytesIO Demo.png_bytes) "image/png" "alice" false false in
  process_file (collab := Demo.collab) (impl := Demo.saving) (JStr "cat.png")
    (Bytes Demo.png_bytes) "image/png" "alice" false true false true []
  = (Ok (Demo.saved primary, Demo.saved thumbnail, 201),
     [CreateFile primary; ImageOpen Demo.png_bytes; CreateFile thumbnail])
  /\ arg_private primary = true
  /\ arg_private thumbnail = false.
Proof.
  intros primary thumbnail.
  split; [ | split; reflexivity].
  exact (proj1 (process_file_thumbnail_saved (collab := Demo.collab)
                  (impl := Demo.saving) (JStr "cat.png") (Bytes Demo.png_bytes)
                  "image/png" "alice" false false true [] "cat.png"
                  (Demo.saved primary) (Demo.saved thumbnail)
                  (BytesIO Demo.png_bytes)
                  eq_refl eq_refl eq_refl eq_refl eq_refl)).
Defined.

Lemma process_file_thumbnail_image_error_witness :
  let data := Bytes (bytes_of "not an image") in
  let primary := primary_args (models := Demo.models) (JStr "cat.png") data
                   "image/png" "alice" false false false in
  process_file (collab := Demo.collab) (impl := Demo.saving) (JStr "cat.png")
    data "image/png" "alice" false true false false []
  = (Raise (LibraryError "cannot identify image file"),
     [CreateFile primary; ImageOpen (bytes_of "not an image")]).
Proof.
  intros data primary.
  exact (process_file_thumbnail_image_error (collab := Demo.collab)
           (impl := Demo.saving) (JStr "cat.png") data "image/png" "alice"
           false false false [] (Demo.saved primary)
           (LibraryError "cannot identify image file")
           eq_refl eq_refl eq_refl).
Defined.

Lemma process_file_thumbnail_without_name_witness :
  let primary := primary_args (models := Demo.models) JNull (Bytes Demo.png_bytes)
                   "image/png" "alice" false false false in
  process_file (collab := Demo.collab) (impl := Demo.saving) JNull
    (Bytes Demo.png_bytes) "image/png" "alice" false true false false []
  = (Raise (AttributeError "'NoneType' object has no attribute 'split'"),
     [CreateFile primary; ImageOpen Demo.png_bytes]).
Proof.
  intros primary.
  exact (process_file_thumbnail_without_name (collab := Demo.collab)
           (impl := Demo.saving) JNull (Bytes Demo.png_bytes) "image/png" "alice"
           false false false [] (Demo.saved primary) (BytesIO Demo.png_bytes)
           (fun name H => eq_ind JNull
                            (fun v => match v with JNull => True | _ => False end)
                            I (JStr name) H)
           eq_refl eq_refl eq_refl).
Defined.

Lemma on_post_base64_thumbnail_error_witness :
  let req := Demo.base64_request "cat.png" "iVBOR3BpeGVscw==" true in
  let primary := primary_args (models := Demo.models) (JStr "cat.png")
                   (Bytes Demo.png_bytes) "image/png" "alice" false false false in
  on_post_base64 (collab := Demo.no_resize) (impl := Demo.saving) Demo.controller
    req Demo.empty_response None []
  = (Raise (LibraryError "image file is truncated"),
     [BodyRead; B64Decode (JStr "iVBOR3BpeGVscw=="); FiletypeGuess Demo.png_bytes;
      CreateFile primary; ImageOpen Demo.png_bytes])
  /\ persisted (on_post_base64 (collab := Demo.no_resize) (impl := Demo.saving)
                  Demo.controller req Demo.empty_response None [])
     = Some (Bytes Demo.png_bytes).
Proof.
  intros req primary.
  exact (on_post_base64_thumbnail_error (collab := Demo.no_resize)
           (impl := Demo.saving) Demo.controller req Demo.empty_response
           Demo.empty_response None "alice" (JStr "iVBOR3BpeGVscw==")
           (JStr "cat.png") None Demo.png_bytes "image/png" (Demo.saved primary)
           (LibraryError "image file is truncated")
           eq_refl eq_refl eq_refl eq_refl eq_refl eq_refl eq_refl eq_refl
           eq_refl eq_refl eq_refl).
Defined.

Lemma on_post_base64_malformed_json_witness :
  json_loads (Collaborators := Demo.collab) (body (Demo.raw_request "not json"))
  = Raise (LibraryError "Expecting value: line 1 column 1 (char 0)")
  /\ on_post_base64 (collab := Demo.collab) (impl := Demo.saving) Demo.controller
       (Demo.raw_request "not json") Demo.empty_response None []
     = (Ok (response (Collaborators := Demo.collab) Demo.empty_response
              HTTPStatus_BAD_REQUEST None
              (Some "Expecting value: line 1 column 1 (char 0)")),
        [] ++ [BodyRead]).
Proof.
  split; [reflexivity | ].
  exact (on_post_base64_malformed_json (collab := Demo.collab) (impl := Demo.saving)
           Demo.controller (Demo.raw_request "not json") Demo.empty_response
           Demo.empty_response None "alice"
           (LibraryError "Expecting value: line 1 column 1 (char 0)") []
           eq_refl eq_refl eq_refl).
Defined.

Lemma on_post_base64_missing_fields_witness :
  let req := Demo.base64_request "a.png" EmptyString false in
  let d := [("file_name", JStr "a.png"); ("base64", JStr EmptyString)] in
  json_loads (Collaborators := Demo.collab) (body req) = Ok (JDict d)
  /\ on_post_base64 (collab := Demo.collab) (impl := Demo.saving) Demo.controller
       req Demo.empty_response None []
     = (Ok (response (Collaborators := Demo.collab) Demo.empty_response
              HTTPStatus_BAD_REQUEST None (Some "'file_name' and 'base64' needed")),
        [] ++ [BodyRead]).
Proof.
  intros req d. split; [reflexivity | ].
  exact (on_post_base64_missing_fields (collab := Demo.collab) (impl := Demo.saving)
           Demo.controller req Demo.empty_response Demo.empty_response None "alice"
           d [] eq_refl eq_refl eq_refl eq_refl).
Defined.

Lemma get_base64_info_size_check_witness :
  let d := fun b64 => [("file_name", JStr "cat.png"); ("base64", JStr b64)] in
  get_base64_info (collab := Demo.collab) Demo.controller
    (Demo.base64_request "cat.png" "iVBOR3BpeGVscw==" false) []
  = (Ok (JStr "iVBOR3BpeGVscw==", JStr "cat.png", None), [] ++ [BodyRead])
  /\ get_base64_info (collab := Demo.collab) Demo.controller
       (Demo.base64_request "cat.png" "iVBOR3BpeGVscyBhbmQgbW9yZSBwaXhlbHM=" false) []
     = (Ok (JNull, JNull, Some "The file cat.png is larger than 4mb."),
        [] ++ [BodyRead]).
Proof.
  intros d. split.
  - exact (get_base64_info_size_check (collab := Demo.collab) Demo.controller
             (Demo.base64_request "cat.png" "iVBOR3BpeGVscw==" false)
             (d "iVBOR3BpeGVscw==") "iVBOR3BpeGVscw==" []
             eq_refl eq_refl eq_refl
             (fun H => eq_ind "iVBOR3BpeGVscw=="
                         (fun s => match s with EmptyString => False | _ => True end)
                         I EmptyString H)).
  - exact (get_base64_info_size_check (collab := Demo.collab) Demo.controller
             (Demo.base64_request "cat.png" "iVBOR3BpeGVscyBhbmQgbW9yZSBwaXhlbHM=" false)
             (d "iVBOR3BpeGVscyBhbmQgbW9yZSBwaXhlbHM=")
             "iVBOR3BpeGVscyBhbmQgbW9yZSBwaXhlbHM=" []
             eq_refl eq_refl eq_refl
             (fun H => eq_ind "iVBOR3BpeGVscyBhbmQgbW9yZSBwaXhlbHM="
                         (fun s => match s with EmptyString => False | _ => True end)
                         I EmptyString H)).
Defined.

Lemma on_post_base64_not_an_object_witness :
  json_loads (Collaborators := Demo.collab) (body (Demo.raw_request "[]"))
  = Ok (JList [])
  /\ on_post_base64 (collab := Demo.collab) (impl := Demo.saving) Demo.controller
       (Demo.raw_request "[]") Demo.empty_response None []
     = (Raise (AttributeError "'list' object has no attribute 'get'"),
        [] ++ [BodyRead]).
Proof.
  split; [reflexivity | ].
  exact (on_post_base64_not_an_object (collab := Demo.collab) (impl := Demo.saving)
           Demo.controller (Demo.raw_request "[]") Demo.empty_response
           Demo.empty_response None "alice" (JList []) []
           eq_refl eq_refl eq_refl
           (fun d H => eq_ind (JList [])
                         (fun v => match v with JList _ => True | _ => False end)
                         I (JDict d) H)).
Defined.

Lemma decode_base64_file_encode_to_base64_witness :
  encode_to_base64 Demo.png_bytes = "iVBOR3BpeGVscw=="
  /\ decode_base64_file (collab := Demo.collab) (JStr "iVBOR3BpeGVscw==") []
     = (Ok Demo.png_bytes, [] ++ [B64Decode (JStr "iVBOR3BpeGVscw==")]).
Proof.
  split; [reflexivity | ].
  exact (decode_base64_file_encode_to_base64 (collab := Demo.collab)
           Demo.png_bytes [] (fun s => eq_refl)).
Defined.

Lemma on_post_base64_saved_witness :
  let req := Demo.base64_request "cat.png" "iVBOR3BpeGVscw==" false in
  let primary := primary_args (models := Demo.models) (JStr "cat.png")
                   (Bytes Demo.png_bytes) "image/png" "alice" false false false in
  on_post_base64 (collab := Demo.collab) (impl := Demo.saving) Demo.controller
    req Demo.empty_response None []
  = (Ok (response (Collaborators := Demo.collab) Demo.empty_response
           (StatusCode 201) (Some (Demo.saved primary)) None),
     [BodyRead; B64Decode (JStr "iVBOR3BpeGVscw=="); FiletypeGuess Demo.png_bytes;
      CreateFile primary]).
Proof.
  intros req primary.
  exact (on_post_base64_saved (collab := Demo.collab) (impl := Demo.saving)
           Demo.controller req Demo.empty_response Demo.empty_response None "alice"
           (JStr "iVBOR3BpeGVscw==") (JStr "cat.png") None Demo.png_bytes
           "image/png" (Demo.saved primary)
           eq_refl eq_refl eq_refl eq_refl eq_refl eq_refl eq_refl eq_refl eq_refl).
Defined.

Lemma on_post_saved_witness :
  let part := {| content_type := "application/pdf"; filename := JStr "notes.pdf";
                 stream := [bytes_of "%PDF"; bytes_of "-1.7"] |} in
  let req := Demo.multipart_request [part] true in
  let primary := primary_args (models := Demo.models) (JStr "notes.pdf")
                   (Bytes (bytes_of "%PDF-1.7")) "application/pdf" "alice"
                   false false false in
  on_post (collab := Demo.collab) (impl := Demo.saving) Demo.controller
    req Demo.empty_response None []
  = (Ok (response (Collaborators := Demo.collab) Demo.empty_response
           (StatusCode 201) (Some (JList [Demo.saved primary])) None),
     reads [bytes_of "%PDF"; bytes_of "-1.7"; []] ++ [CreateFile primary]).
Proof.
  intros part req primary.
  assert (Hle : len_bytes (stream_bytes (stream part)) <= max_file_size Demo.controller)
    by (vm_compute; discriminate).
  exact (on_post_saved (collab := Demo.collab) (impl := Demo.saving)
           Demo.controller req Demo.empty_response Demo.empty_response None "alice"
           part [] (Demo.saved primary)
           eq_refl eq_refl eq_refl eq_refl Hle eq_refl eq_refl).
Defined.

(* ------------------------------------------------------------------ *)
(** ** The thumbnail of a streamed image, and its name                 *)
(* ------------------------------------------------------------------ *)

Local Open Scope string_scope.

(** A name is its first segment, followed by nothing or by a dot. *)
Lemma str_split_head (filename : string) :
  exists base tail segs,
    str_split "." filename = base :: segs
    /\ filename = base ++ tail
    /\ (tail = EmptyString \/ exists rest, tail = String "." rest).
Proof.
  induction filename as [ | a rest IH].
  - exists EmptyString, EmptyString, []. repeat split. now left.
  - simpl. destruct (Ascii.eqb_spec a ".") as [-> | Hne].
    + exists EmptyString, (String "." rest), (str_split "." rest).
      repeat split. right. now exists rest.
    + destruct IH as (base & tail & segs & Hsplit & Hrest & Htail).
      rewrite Hsplit. exists (String a base), tail, segs.
      repeat split; [simpl; now rewrite <- Hrest | exact Htail].
Qed.

Lemma append_cancel (base x y : string) : base ++ x = base ++ y -> x = y.
Proof.
  induction base as [ | a base IH]; simpl; intros H; [exact H | ].
  injection H as H. now apply IH.
Qed.

(** X21: the name of the thumbnail is never the name of the upload, so
    the thumbnail cannot take the place of the primary file. *)
Theorem thumbnail_name_differs (filename : string) :
  thumbnail_name filename <> filename.
Proof.
  destruct (str_split_head filename)
    as (base & tail & segs & Hsplit & Hname & Htail).
  unfold thumbnail_name. rewrite Hsplit. cbn [nth].
  intros Heq. rewrite Hname in Heq.
  apply append_cancel in Heq.
  destruct Htail as [-> | (rest & ->)]; simpl in Heq; discriminate Heq.
Qed.

Local Open Scope list_scope.

Section StreamedImage.

Context {models : Models} {collab : Collaborators} {impl : FileAbstract}.

Variable self : FileController.

(** X20: for a streamed image with a thumbnail asked for, the
    thumbnail is made from the compressed buffer that was persisted as the
    primary file, not from the bytes of the stream, and the answer is
    status 201 with the primary record followed by the thumbnail record
    (which is left out if it serialises to something empty). *)
Theorem on_post_image_with_thumbnail (req : Request) (resp resp' : Response)
    (id : option Z) (session : Session) (part : BodyPart) (more : list BodyPart)
    (name : string) (img : Image) (compressed : bytes) (thumbnail_content : content)
    (file thumbnail_file : File) :
  let upload := stream_bytes (stream part) in
  let read := reads (delivered (stream part))
              ++ [StreamRead CHUNK_SIZE []; ImageOpen upload] in
  let primary := primary_args (filename part) (BytesIO compressed) (content_type part)
                   (session_user session) false
                   (check_if_public_file req) (check_if_private_file req) in
  let thumbnail := thumbnail_args name thumbnail_content (content_type part)
                     (session_user session) false (check_if_public_file req) in
  id_given id = false ->
  get_session req resp = (Some session, resp') ->
  media req = Ok (part :: more) ->
  filename part = JStr name ->
  str_in (content_type part) (accepted_files self) = true ->
  len_bytes upload <= max_file_size self ->
  str_in (content_type part) IMAGE_EXTENSIONS = true ->
  check_if_make_thumbnail req = true ->
  Image_open upload = Ok img ->
  Image_save img (Image_format img) [("optimize", JBool true); ("quality", JInt 65)]
  = Ok compressed ->
  create_file read primary = Ok (Some file) ->
  fst (create_thumbnail_image (BytesIO compressed) (read ++ [CreateFile primary]))
  = Ok thumbnail_content ->
  create_file (read ++ [CreateFile primary; ImageOpen compressed]) thumbnail
  = Ok (Some thumbnail_file) ->
  on_post self req resp id []
  = (Ok (response resp' (StatusCode 201)
           (Some (JList (if truthy (serialize_model thumbnail_file)
                         then [serialize_model file; serialize_model thumbnail_file]
                         else [serialize_model file])))
           None),
     read ++ [CreateFile primary; ImageOpen compressed; CreateFile thumbnail]).
Proof.
  intros upload read primary thumbnail Hid Hsession Hmedia Hname Hok Hle Himg
    Hmake Hopen Hsave Hfile Himage Hthumb.
  pose proof (process_stream_payload self part [] Hok Hle) as Hrun.
  cbv zeta in Hrun. rewrite Himg in Hrun.
  rewrite (compress_image_saved _ _ _ _ Hopen Hsave) in Hrun.
  cbn [app] in Hrun. rewrite <- app_assoc in Hrun. cbn [app] in Hrun.
  fold upload in Hrun. fold read in Hrun.
  unfold on_post. rewrite Hid, Hsession, Hmedia.
  unfold on_post_loop. run_step. rewrite Hrun, Hmake.
  rewrite (process_file_saved (filename part) (BytesIO compressed)
             (content_type part) (session_user session) false true
             (check_if_public_file req) (check_if_private_file req) read file Hfile).
  rewrite Himg. cbn [andb]. fold primary.
  rewrite (create_thumbnail_made (BytesIO compressed) thumbnail_content (filename part)
             (content_type part) false (session_user session)
             (check_if_public_file req) (check_if_private_file req) _ Himage).
  rewrite Hname. cbv zeta. fold thumbnail. cbn [bytes_of_content].
  replace ((read ++ [CreateFile primary]) ++ [ImageOpen compressed])
    with (read ++ [CreateFile primary; ImageOpen compressed])
    by now rewrite <- app_assoc.
  rewrite Hthumb.
  replace ((read ++ [CreateFile primary; ImageOpen compressed]) ++ [CreateFile thumbnail])
    with (read ++ [CreateFile primary; ImageOpen compressed; CreateFile thumbnail])
    by now rewrite <- app_assoc.
  destruct (truthy (serialize_model thumbnail_file)); reflexivity.
Qed.

End StreamedImage.

Lemma on_post_image_with_thumbnail_witness :
  let part := {| content_type := "image/png"; filename := JStr "cat.png";
                 stream := [Demo.png_magic; bytes_of "pixels"] |} in
  let req := Demo.multipart_request [part] true in
  let compressed := firstn 8 Demo.png_bytes in
  let primary := primary_args (models := Demo.models) (JStr "cat.png")
                   (BytesIO compressed) "image/png" "alice" false false false in
  let thumbnail := thumbnail_args (models := Demo.models) "cat.png"
                     (BytesIO compressed) "image/png" "alice" false false in
  on_post (collab := Demo.collab) (impl := Demo.saving) Demo.controller
    req Demo.empty_response None []
  = (Ok (response (Collaborators := Demo.collab) Demo.empty_response
           (StatusCode 201)
           (Some (JList [Demo.saved primary; Demo.saved thumbnail])) None),
     reads [Demo.png_magic; bytes_of "pixels"]
     ++ [StreamRead CHUNK_SIZE []; ImageOpen Demo.png_bytes;
         CreateFile primary; ImageOpen compressed; CreateFile thumbnail]).
Proof.
  intros part req compressed primary thumbnail.
  assert (Hle : len_bytes (stream_bytes (stream part)) <= max_file_size Demo.controller)
    by (vm_compute; discriminate).
  exact (on_post_image_with_thumbnail (collab := Demo.collab) (impl := Demo.saving)
           Demo.controller req Demo.empty_response Demo.empty_response None "alice"
           part [] "cat.png" Demo.png_bytes compressed (BytesIO compressed)
           (Demo.saved primary) (Demo.saved thumbnail)
           eq_refl eq_refl eq_refl eq_refl eq_refl Hle eq_refl eq_refl eq_refl
           eq_refl eq_refl eq_refl eq_refl).
Defined.
